(** * MCP23017 high-level analyzer: reassembly state machine and register decoder

    Shallow embedding of [MCP23017.py].  Python integers are [Z], a
    [bytearray] is a [list Z], dictionaries updated by key are [gmap]s, the
    insertion-ordered dictionary [IOCON_BITS] that the code iterates over is
    an association list, and the mutable analyzer object [self] is a record
    threaded explicitly through [ll_fsm] and [decode].  Exceptions raised by
    indexing are values of [result]. *)

From Stdlib Require Import ZArith String Ascii List Bool Lia.
From Stdlib Require Import Hexadecimal HexadecimalString HexadecimalN.
From stdpp Require Import base option list gmap strings.

Local Open Scope string_scope.
Local Open Scope list_scope.
Local Open Scope Z_scope.

(** ** Outcomes of fallible Python code *)

Inductive exn : Type := IndexError | KeyError.

Inductive result (A : Type) : Type :=
| Return (a : A)
| Raise (e : exn).
Arguments Return {A} a.
Arguments Raise {A} e.

#[global] Instance result_bind : MBind result := fun A B k r =>
  match r with
  | Return a => k a
  | Raise e => Raise e
  end.

Fixpoint rmap {A B} (f : A -> result B) (l : list A) : result (list B) :=
  match l with
  | [] => Return []
  | a :: l => b ← f a; bs ← rmap f l; Return (b :: bs)
  end.

(** ** Module constants *)

Definition START_ADDRESS : Z := 0x20.
Definition N_ADDRESSES : Z := 8.

(** [IOCON_BITS]: the code both indexes it by name and iterates over its keys
    in insertion order. *)
Definition IOCON_BITS : list (string * Z) :=
  [ ("INTPOL", 1); ("ODR", 2); ("HAEN", 3); ("DISSLW", 4);
    ("SEQOP", 5); ("MIRROW", 6); ("BANK", 7) ].

Fixpoint dict_get {V} (d : list (string * V)) (key : string) : result V :=
  match d with
  | [] => Raise KeyError
  | (k, v) :: d => if String.eqb k key then Return v else dict_get d key
  end.

Definition dict_keys {V} (d : list (string * V)) : list string := map fst d.

(** [(reg & (1 << IOCON_BITS[string])) != 0] *)
Definition iocon_bit_test (reg : Z) (string : string) : result bool :=
  bit ← dict_get IOCON_BITS string;
  Return (negb (Z.land reg (Z.shiftl 1 bit) =? 0)).

(** [MAP]: the outer dictionary has the two keys [0] and [1]; Python's
    [False]/[True] hash and compare equal to them, so the key is a [bool]. *)
Definition MAP (iocon_bank : bool) : gmap Z string :=
  if iocon_bank then
    list_to_map
      [ (0x00, "IODIRA"); (0x10, "IODIRB"); (0x01, "IPOLA"); (0x11, "IPOLB");
        (0x02, "GPINTENA"); (0x12, "GPINTENB"); (0x03, "DEFVALA");
        (0x13, "DEFVALB"); (0x04, "INTCONA"); (0x14, "INTCONB");
        (0x05, "IOCON"); (0x15, "IOCON"); (0x06, "GPPUA"); (0x16, "GPPUB");
        (0x07, "INTFA"); (0x17, "INTFB"); (0x08, "INTCAPA"); (0x18, "INTCAPB");
        (0x09, "GPIOA"); (0x19, "GPIOB"); (0x0a, "OLATA"); (0x1a, "OLATB") ]
  else
    list_to_map
      [ (0x00, "IODIRA"); (0x01, "IODIRB"); (0x02, "IPOLA"); (0x03, "IPOLB");
        (0x04, "GPINTENA"); (0x05, "GPINTENB"); (0x06, "DEFVALA");
        (0x07, "DEFVALB"); (0x08, "INTCONA"); (0x09, "INTCONB");
        (0x0a, "IOCON"); (0x0b, "IOCON"); (0x0c, "GPPUA"); (0x0d, "GPPUB");
        (0x0e, "INTFA"); (0x0f, "INTFB"); (0x10, "INTCAPA"); (0x11, "INTCAPB");
        (0x12, "GPIOA"); (0x13, "GPIOB"); (0x14, "OLATA"); (0x15, "OLATB") ].

(** ** String formatting *)

(** [format(n, 'x')] for [n >= 0]: lower-case hexadecimal digits, ["0"] for
    zero. *)
Definition hex (n : Z) : string :=
  NilZero.string_of_uint (N.to_hex_uint (Z.to_N n)).

(** [f"{n:#04x}"]: the [0x] prefix counts in the width of 4, so the digits are
    zero-padded to two; a sign comes first and takes one column. *)
Definition format_04x (n : Z) : string :=
  if n <? 0 then "-0x" +:+ hex (- n)
  else
    let digits := hex n in
    "0x" +:+ (if (String.length digits <? 2)%nat then "0" +:+ digits else digits).

(** [str(b)] for a Python [bool]. *)
Definition str_bool (b : bool) : string := if b then "True" else "False".

(** [sep.join(l)] *)
Fixpoint join (sep : string) (l : list string) : string :=
  match l with
  | [] => EmptyString
  | [s] => s
  | s :: l => s +:+ sep +:+ join sep l
  end.

(** [enumerate(l, start=start)] *)
Fixpoint enumerate {A} (l : list A) (start : Z) : list (Z * A) :=
  match l with
  | [] => []
  | x :: l => (start, x) :: enumerate l (start + 1)
  end.

(** ** Data model *)

Inductive LLState : Type := IDLE | START | DATA.

(** A frame of the underlying I2C analyzer: [frame.type] with the keys of
    [frame.data] that the type carries.  [address] is
    [frame.data["address"][0]], the single address byte of the frame;
    [data] is the [bytes] object [frame.data["data"]].  [FOther] is a frame
    of any other type. *)
Inductive Frame : Type :=
| FStart (start_time end_time : Z)
| FAddress (start_time end_time : Z) (address : Z) (read ack : bool)
| FData (start_time end_time : Z) (data : list Z) (ack : bool)
| FStop (start_time end_time : Z)
| FOther (start_time end_time : Z).

Module LLFrame.
Record t : Type := mk {
  start_time : option Z;
  end_time : Z;
  data : list Z;
  read : bool;
  address : option Z;
}.
End LLFrame.

(** The frame [decode] returns: type, times and the three entries of its data
    dictionary. *)
Module AnalyzerFrame.
Record t : Type := mk {
  type : string;
  start_time : option Z;
  end_time : Z;
  data_address : option Z;
  data_read : string;
  data_data : string;
}.
End AnalyzerFrame.

(** The analyzer object.  The two settings are the choices ["0"]/["1"] after
    [int(...)]; [IOCON_BANK] holds [0]/[1] or [False]/[True]; [address] and
    [start_time] are [None] after [reset]. *)
Record MCP23017 : Type := mkMCP23017 {
  iocon_bank_setting : bool;
  show_bits_setting : bool;
  IOCON_BANK : gmap Z bool;
  state : LLState;
  address : option Z;
  data : list Z;
  start_time : option Z;
  read : bool;
}.

Definition set_state (self : MCP23017) (s : LLState) : MCP23017 :=
  mkMCP23017 (iocon_bank_setting self) (show_bits_setting self)
    (IOCON_BANK self) s (address self) (data self) (start_time self)
    (read self).

Definition set_address (self : MCP23017) (a : option Z) : MCP23017 :=
  mkMCP23017 (iocon_bank_setting self) (show_bits_setting self)
    (IOCON_BANK self) (state self) a (data self) (start_time self)
    (read self).

Definition set_data (self : MCP23017) (d : list Z) : MCP23017 :=
  mkMCP23017 (iocon_bank_setting self) (show_bits_setting self)
    (IOCON_BANK self) (state self) (address self) d (start_time self)
    (read self).

Definition set_start_time (self : MCP23017) (t : option Z) : MCP23017 :=
  mkMCP23017 (iocon_bank_setting self) (show_bits_setting self)
    (IOCON_BANK self) (state self) (address self) (data self) t (read self).

Definition set_read (self : MCP23017) (r : bool) : MCP23017 :=
  mkMCP23017 (iocon_bank_setting self) (show_bits_setting self)
    (IOCON_BANK self) (state self) (address self) (data self)
    (start_time self) r.

Definition set_IOCON_BANK (self : MCP23017) (m : gmap Z bool) : MCP23017 :=
  mkMCP23017 (iocon_bank_setting self) (show_bits_setting self)
    m (state self) (address self) (data self) (start_time self) (read self).

(** ** The reassembly state machine *)

Definition reset (self : MCP23017) : MCP23017 :=
  let self := set_state self IDLE in
  let self := set_address self None in
  let self := set_data self [] in
  let self := set_start_time self None in
  set_read self false.

(** [__init__] *)
Definition init (iocon_bank_setting show_bits_setting : bool) : MCP23017 :=
  reset
    (mkMCP23017 iocon_bank_setting show_bits_setting
       (list_to_map
          ((fun addr => (addr, iocon_bank_setting))
             <$> seqZ START_ADDRESS N_ADDRESSES))
       IDLE None [] None false).

(** [ll_fsm]: every path that does not [return out] early falls through to
    [self.reset()]. *)
Definition ll_fsm (self : MCP23017) (frame : Frame)
  : MCP23017 * option LLFrame.t :=
  let out : option LLFrame.t := None in
  match state self with
  | IDLE =>
      match frame with
      | FStart st _ =>
          let self := set_state self START in
          let self := set_start_time self (Some st) in
          (self, out)
      | _ => (reset self, out)
      end
  | START =>
      match frame with
      | FAddress _ _ a r true =>
          let self := set_read self (read self || r) in
          let self := set_address self (Some a) in
          if (START_ADDRESS <=? a) && (a <? START_ADDRESS + N_ADDRESSES)
          then (set_state self DATA, out)
          else (reset self, out)
      | _ => (reset self, out)
      end
  | DATA =>
      match frame with
      | FData _ _ d _ => (set_data self (data self ++ d), out)
      | FStart _ _ => (set_state self START, out)
      | FStop _ et =>
          let self := set_state self IDLE in
          let out :=
            Some (LLFrame.mk (start_time self) et (data self) (read self)
                    (address self)) in
          (reset self, out)
      | _ => (reset self, out)
      end
  end.

(** ** The register decoder *)

(** [MAP[iocon_bank].get(regaddr, f"{regaddr:#04x}?")] *)
Definition reg_name_of (iocon_bank : bool) (regaddr : Z) : string :=
  default (format_04x regaddr +:+ "?") (MAP iocon_bank !! regaddr).

(** The body of the [for] loop of [decode], for one [(regaddr, regval)]: it
    may store into [self.IOCON_BANK] and it extends the list [data].
    [iocon_bank] is the local variable read once before the loop; [chip] is
    [i2c_frame.address], an integer once the lookup before the loop has
    succeeded. *)
Definition decode_item (i2c_frame : LLFrame.t) (chip : Z) (iocon_bank : bool)
    (self : MCP23017) (data : list string) (item : Z * Z)
  : MCP23017 * result (list string) :=
  let '(regaddr, regval) := item in
  let reg_name := reg_name_of iocon_bank regaddr in
  if String.eqb reg_name "IOCON" then
    let step1 : MCP23017 * result unit :=
      if negb (LLFrame.read i2c_frame) then
        match iocon_bit_test regval "BANK" with
        | Return b => (set_IOCON_BANK self (<[chip := b]> (IOCON_BANK self)), Return tt)
        | Raise e => (self, Raise e)
        end
      else (self, Return tt) in
    match step1 with
    | (self, Raise e) => (self, Raise e)
    | (self, Return _) =>
        if show_bits_setting self then
          (self,
           bits ← rmap (fun key => b ← iocon_bit_test regval key;
                                   Return (key +:+ "=" +:+ str_bool b))
                       (dict_keys IOCON_BITS);
           Return (data ++ bits))
        else (self, Return (data ++ [reg_name +:+ "=" +:+ format_04x regval]))
    end
  else (self, Return (data ++ [reg_name +:+ "=" +:+ format_04x regval])).

Fixpoint decode_loop (i2c_frame : LLFrame.t) (chip : Z) (iocon_bank : bool)
    (self : MCP23017) (data : list string) (items : list (Z * Z))
  : MCP23017 * result (list string) :=
  match items with
  | [] => (self, Return data)
  | item :: items =>
      match decode_item i2c_frame chip iocon_bank self data item with
      | (self, Return data) => decode_loop i2c_frame chip iocon_bank self data items
      | (self, Raise e) => (self, Raise e)
      end
  end.

(** The part of [decode] guarded by [if i2c_frame := ...], up to the end of
    the loop: the field list [data] before it is joined. *)
Definition decode_fields (self : MCP23017) (i2c_frame : LLFrame.t)
  : MCP23017 * result (list string) :=
  match LLFrame.data i2c_frame with
  | [] => (self, Raise IndexError)
  | start_reg :: values =>
      match LLFrame.address i2c_frame with
      | None => (self, Raise KeyError)
      | Some chip =>
          match IOCON_BANK self !! chip with
          | None => (self, Raise KeyError)
          | Some iocon_bank =>
              decode_loop i2c_frame chip iocon_bank self []
                (enumerate values start_reg)
          end
      end
  end.

Definition decode_frame (self : MCP23017) (i2c_frame : LLFrame.t)
  : MCP23017 * result AnalyzerFrame.t :=
  match decode_fields self i2c_frame with
  | (self, Raise e) => (self, Raise e)
  | (self, Return data) =>
      (self,
       Return
         (AnalyzerFrame.mk "MCP23017"
            (LLFrame.start_time i2c_frame) (LLFrame.end_time i2c_frame)
            (LLFrame.address i2c_frame)
            (if LLFrame.read i2c_frame then "read" else "write")
            (join "; " data)))
  end.

(** [decode]: a dataclass instance is always truthy, so the body runs exactly
    when [ll_fsm] returned a frame. *)
Definition decode (self : MCP23017) (frame : Frame)
  : MCP23017 * result (option AnalyzerFrame.t) :=
  match ll_fsm self frame with
  | (self, Some i2c_frame) =>
      match decode_frame self i2c_frame with
      | (self, Return out) => (self, Return (Some out))
      | (self, Raise e) => (self, Raise e)
      end
  | (self, None) => (self, Return None)
  end.

(** ** Running over an event sequence *)

(** The reassembler alone: one output slot per input frame. *)
Fixpoint ll_run (self : MCP23017) (frames : list Frame)
  : MCP23017 * list (option LLFrame.t) :=
  match frames with
  | [] => (self, [])
  | frame :: frames =>
      let '(self, out) := ll_fsm self frame in
      let '(self, outs) := ll_run self frames in
      (self, out :: outs)
  end.

(** The whole pipeline; an exception ends the session, and the records
    produced before it are kept with it. *)
Fixpoint decode_all (self : MCP23017) (frames : list Frame)
  : MCP23017 * list (option AnalyzerFrame.t) * option exn :=
  match frames with
  | [] => (self, [], None)
  | frame :: frames =>
      match decode self frame with
      | (self, Raise e) => (self, [], Some e)
      | (self, Return out) =>
          let '(self, outs, e) := decode_all self frames in
          (self, out :: outs, e)
      end
  end.

(** ** Notions used in the statements *)

(** The strings the verbose branch appends: one per key of [IOCON_BITS], in
    the dictionary's order. *)
Definition bit_fields (regval : Z) : list string :=
  map (fun kb => fst kb +:+ "=" +:+ str_bool (Z.testbit regval (snd kb)))
      IOCON_BITS.

(** The fields one [(regaddr, regval)] pair contributes. *)
Definition item_fields (show_bits iocon_bank : bool) (item : Z * Z)
  : list string :=
  let reg_name := reg_name_of iocon_bank (fst item) in
  if String.eqb reg_name "IOCON" && show_bits then bit_fields (snd item)
  else [reg_name +:+ "=" +:+ format_04x (snd item)].

(** The bank-mode table after one [(regaddr, regval)] pair. *)
Definition item_store (read iocon_bank : bool) (chip : Z)
    (m : gmap Z bool) (item : Z * Z) : gmap Z bool :=
  if String.eqb (reg_name_of iocon_bank (fst item)) "IOCON" && negb read
  then <[chip := Z.testbit (snd item) 7]> m
  else m.

Definition in_window (a : Z) : Prop :=
  START_ADDRESS <= a < START_ADDRESS + N_ADDRESSES.

Definition is_data_frame (frame : Frame) : Prop :=
  match frame with FData _ _ _ _ => True | _ => False end.

(** The bytes a run of frames appends to the payload buffer. *)
Definition payload_of (frames : list Frame) : list Z :=
  flat_map (fun frame => match frame with FData _ _ d _ => d | _ => [] end)
           frames.

(** What the DATA state records about the frames processed so far: the last
    address frame was acknowledged and inside the window, its address is the
    stored one, and only data frames came after it. *)
Definition addressed (frames : list Frame) (self : MCP23017) : Prop :=
  state self = DATA ->
  exists (i : nat) a st et r,
    frames !! i = Some (FAddress st et a r true) /\ in_window a /\
    address self = Some a /\
    forall (k : nat) frame,
      (i < k)%nat -> frames !! k = Some frame -> is_data_frame frame.

(** Every transaction the reassembler emits, traced to its address frame. *)
Definition emitted_after_ack (frames : list Frame) (j : nat)
    (i2c_frame : LLFrame.t) : Prop :=
  exists (i : nat) a st et r,
    (i < j)%nat /\ frames !! i = Some (FAddress st et a r true) /\
    START_ADDRESS <= a < START_ADDRESS + N_ADDRESSES /\
    LLFrame.address i2c_frame = Some a /\
    (forall (k : nat) frame,
       (i < k < j)%nat -> frames !! k = Some frame -> is_data_frame frame) /\
    exists st' et', frames !! j = Some (FStop st' et').

Definition not_start_frame (frame : Frame) : Prop :=
  match frame with FStart _ _ => False | _ => True end.

(** Transactions decoded one after the other; only the analyzer matters
    here. *)
Definition decode_frames (self : MCP23017) (i2c_frames : list LLFrame.t)
  : MCP23017 :=
  fold_left (fun self i2c_frame => (decode_frame self i2c_frame).1)
            i2c_frames self.

(** A transaction that does not write the configuration register of [chip]
    while [chip] is in mode [iocon_bank]: a read, a transaction for another
    chip, or a payload none of whose offsets resolves to the configuration
    register. *)
Definition leaves_mode (chip : Z) (iocon_bank : bool) (i2c_frame : LLFrame.t)
  : Prop :=
  LLFrame.read i2c_frame = true \/
  LLFrame.address i2c_frame <> Some chip \/
  forall start_reg values (j : nat) w,
    LLFrame.data i2c_frame = start_reg :: values -> values !! j = Some w ->
    reg_name_of iocon_bank (start_reg + Z.of_nat j) <> "IOCON".

(** What holds of the analyzer from construction on: every address of the
    window has a bank-mode entry, and in the DATA state the stored address is
    an address of the window. *)
Definition ready (self : MCP23017) : Prop :=
  (forall a, in_window a -> is_Some (IOCON_BANK self !! a)) /\
  (state self = DATA -> exists a, address self = Some a /\ in_window a).

(** [int(digits, 16)] for a string of hexadecimal digits. *)
Definition hex_value (digits : string) : option Z :=
  (fun d => Z.of_N (N.of_hex_uint d)) <$> NilZero.uint_of_string digits.

Definition set_iocon_bank_setting (self : MCP23017) (s : bool) : MCP23017 :=
  mkMCP23017 s (show_bits_setting self) (IOCON_BANK self) (state self)
    (address self) (data self) (start_time self) (read self).

(** Two analyzers in the same situation: the same verbose setting, the same
    bank-mode table and the same reassembler state.  The initial-bank setting
    itself is not compared; only the table built from it is. *)
Definition same_session (self1 self2 : MCP23017) : Prop :=
  show_bits_setting self1 = show_bits_setting self2 /\
  IOCON_BANK self1 = IOCON_BANK self2 /\
  state self1 = state self2 /\ address self1 = address self2 /\
  data self1 = data self2 /\ start_time self1 = start_time self2 /\
  read self1 = read self2.

(** The reassembler's part of two analyzers is the same. *)
Definition same_fsm (self1 self2 : MCP23017) : Prop :=
  state self1 = state self2 /\ address self1 = address self2 /\
  data self1 = data self2 /\ start_time self1 = start_time self2 /\
  read self1 = read self2.

(** The bank-mode table has an entry for exactly the addresses of the
    window. *)
Definition table_on_window (self : MCP23017) : Prop :=
  forall a, is_Some (IOCON_BANK self !! a) <-> in_window a.

(** Outside the IDLE state the stored start time is that of a Start frame
    among the frames processed so far. *)
Definition started (frames : list Frame) (self : MCP23017) : Prop :=
  state self <> IDLE ->
  exists (i : nat) st et,
    frames !! i = Some (FStart st et) /\ start_time self = Some st.

(** The bank-1 offset of the register that bank 0 has at offset [k]: the A
    registers from 0x00, the B registers from 0x10. *)
Definition bank1_offset (k : Z) : Z := k / 2 + 0x10 * (k mod 2).

(** The header of a decoded record is that of the transaction. *)
Definition record_of (out : AnalyzerFrame.t) (i2c_frame : LLFrame.t) : Prop :=
  AnalyzerFrame.type out = "MCP23017" /\
  AnalyzerFrame.start_time out = LLFrame.start_time i2c_frame /\
  AnalyzerFrame.end_time out = LLFrame.end_time i2c_frame /\
  AnalyzerFrame.data_address out = LLFrame.address i2c_frame /\
  AnalyzerFrame.data_read out =
    (if LLFrame.read i2c_frame then "read" else "write").

(** What [decode] returned for a frame against what [ll_fsm] returned for
    it: nothing for nothing, a record for a transaction with a payload. *)
Definition record_matches (out : option AnalyzerFrame.t)
    (i2c_frame : option LLFrame.t) : Prop :=
  match out, i2c_frame with
  | None, None => True
  | Some out, Some i2c_frame =>
      record_of out i2c_frame /\ LLFrame.data i2c_frame <> []
  | _, _ => False
  end.

(** [frame.start_time] and [frame.end_time]. *)
Definition frame_times (frame : Frame) : Z * Z :=
  match frame with
  | FStart st et | FStop st et | FOther st et => (st, et)
  | FAddress st et _ _ _ => (st, et)
  | FData st et _ _ => (st, et)
  end.

(** The frames come in time order: an earlier frame starts no later than a
    later frame ends. *)
Definition chronological (frames : list Frame) : Prop :=
  forall (i j : nat) frame_i frame_j,
    (i < j)%nat -> frames !! i = Some frame_i -> frames !! j = Some frame_j ->
    (frame_times frame_i).1 <= (frame_times frame_j).2.

Definition set_show_bits_setting (self : MCP23017) (s : bool) : MCP23017 :=
  mkMCP23017 (iocon_bank_setting self) s (IOCON_BANK self) (state self)
    (address self) (data self) (start_time self) (read self).

(** Two answers of [decode] that differ at most in the data string. *)
Definition same_header (out1 out2 : option AnalyzerFrame.t) : Prop :=
  match out1, out2 with
  | None, None => True
  | Some out1, Some out2 =>
      AnalyzerFrame.type out1 = AnalyzerFrame.type out2 /\
      AnalyzerFrame.start_time out1 = AnalyzerFrame.start_time out2 /\
      AnalyzerFrame.end_time out1 = AnalyzerFrame.end_time out2 /\
      AnalyzerFrame.data_address out1 = AnalyzerFrame.data_address out2 /\
      AnalyzerFrame.data_read out1 = AnalyzerFrame.data_read out2
  | _, _ => False
  end.

(** * Properties *)

(** ** The tables and the formatting on examples *)

Example format_04x_examples :
  format_04x 0x3a = "0x3a" /\ format_04x 5 = "0x05" /\ format_04x 0 = "0x00" /\
  format_04x 0x100 = "0x100" /\ format_04x (-1) = "-0x1".
Proof. repeat split; reflexivity. Qed.

Example MAP_examples :
  MAP false !! 0x0a = Some "IOCON" /\ MAP true !! 0x09 = Some "GPIOA" /\
  MAP true !! 0x0b = None.
Proof. repeat split; reflexivity. Qed.

(** ** Bit tests and formatting *)

Lemma land_bit_test (reg bit : Z) :
  0 <= bit -> negb (Z.land reg (Z.shiftl 1 bit) =? 0) = Z.testbit reg bit.
Proof.
  intros Hbit. rewrite Z.shiftl_1_l.
  destruct (Z.testbit reg bit) eqn:Hb.
  - apply negb_true_iff, Z.eqb_neq. intros H0.
    assert (Z.testbit (Z.land reg (2 ^ bit)) bit = true) as Ht.
    { rewrite Z.land_spec, Hb, Z.pow2_bits_true by lia. done. }
    rewrite H0, Z.bits_0 in Ht. done.
  - apply negb_false_iff, Z.eqb_eq. apply Z.bits_inj'. intros n Hn.
    rewrite Z.land_spec, Z.bits_0, Z.pow2_bits_eqb by lia.
    destruct (Z.eqb_spec bit n) as [->|]; [rewrite Hb|]; by rewrite ?andb_false_r.
Qed.

Lemma iocon_bit_test_key (reg : Z) (key : string) (bit : Z) :
  dict_get IOCON_BITS key = Return bit -> 0 <= bit ->
  iocon_bit_test reg key = Return (Z.testbit reg bit).
Proof.
  intros Hget Hbit. unfold iocon_bit_test. rewrite Hget. cbn [mbind result_bind].
  by rewrite land_bit_test.
Qed.

Lemma iocon_bit_test_BANK (reg : Z) :
  iocon_bit_test reg "BANK" = Return (Z.testbit reg 7).
Proof. by apply iocon_bit_test_key. Qed.

Lemma rmap_bit_fields (regval : Z) :
  rmap (fun key => b ← iocon_bit_test regval key;
                   Return (key +:+ "=" +:+ str_bool b))
       (dict_keys IOCON_BITS)
  = Return (bit_fields regval).
Proof.
  unfold dict_keys, bit_fields, IOCON_BITS.
  cbn [map fst snd rmap].
  rewrite (iocon_bit_test_key regval "INTPOL" 1), (iocon_bit_test_key regval "ODR" 2),
    (iocon_bit_test_key regval "HAEN" 3), (iocon_bit_test_key regval "DISSLW" 4),
    (iocon_bit_test_key regval "SEQOP" 5), (iocon_bit_test_key regval "MIRROW" 6),
    (iocon_bit_test_key regval "BANK" 7) by (reflexivity || lia).
  reflexivity.
Qed.

(** ** What one pass of the loop does *)

Lemma set_IOCON_BANK_id (self : MCP23017) :
  set_IOCON_BANK self (IOCON_BANK self) = self.
Proof. by destruct self. Qed.

Lemma decode_item_eq i2c_frame chip iocon_bank self data item :
  decode_item i2c_frame chip iocon_bank self data item =
  (set_IOCON_BANK self
     (item_store (LLFrame.read i2c_frame) iocon_bank chip (IOCON_BANK self) item),
   Return (data ++ item_fields (show_bits_setting self) iocon_bank item)).
Proof.
  destruct item as [regaddr regval].
  unfold decode_item, item_store, item_fields. cbn [fst snd].
  destruct (String.eqb (reg_name_of iocon_bank regaddr) "IOCON") eqn:Hname;
    cbn [andb]; [|by rewrite set_IOCON_BANK_id].
  rewrite iocon_bit_test_BANK, rmap_bit_fields.
  destruct (LLFrame.read i2c_frame); cbn [negb];
    rewrite ?set_IOCON_BANK_id; destruct self as [? [|] ? ? ? ? ? ?]; reflexivity.
Qed.

Lemma decode_loop_eq i2c_frame chip iocon_bank items : forall self data,
  decode_loop i2c_frame chip iocon_bank self data items =
  (set_IOCON_BANK self
     (fold_left (item_store (LLFrame.read i2c_frame) iocon_bank chip) items
        (IOCON_BANK self)),
   Return
     (data ++ flat_map (item_fields (show_bits_setting self) iocon_bank) items)).
Proof.
  induction items as [|item items IH]; intros self data; cbn [decode_loop].
  - cbn [fold_left flat_map]. by rewrite set_IOCON_BANK_id, app_nil_r.
  - rewrite decode_item_eq, IH. cbn [fold_left flat_map].
    rewrite <- app_assoc. by destruct self.
Qed.

Lemma enumerate_lookup {A} (l : list A) : forall (start : Z) (i : nat),
  enumerate l start !! i = (fun x => (start + Z.of_nat i, x)) <$> l !! i.
Proof.
  induction l as [|x l IH]; intros start [|i]; cbn [enumerate]; try done.
  - cbn. by rewrite Z.add_0_r.
  - cbn [lookup list_lookup]. rewrite IH.
    destruct (l !! i); cbn; [|done]. do 2 f_equal. lia.
Qed.

Lemma enumerate_length {A} (l : list A) (start : Z) :
  length (enumerate l start) = length l.
Proof. revert start. induction l; intros; cbn; by rewrite ?IHl. Qed.

(** ** The bank-mode table over a payload *)

Section store.
Context (read iocon_bank : bool) (chip : Z).

Lemma fold_store_read (items : list (Z * Z)) (m : gmap Z bool) :
  read = true -> fold_left (item_store read iocon_bank chip) items m = m.
Proof.
  intros ->. revert m. induction items as [|item items IH]; intros m; [done|].
  cbn [fold_left]. rewrite IH. unfold item_store.
  by rewrite andb_false_r.
Qed.

Lemma fold_store_other (items : list (Z * Z)) (m : gmap Z bool) (other : Z) :
  other <> chip ->
  fold_left (item_store read iocon_bank chip) items m !! other = m !! other.
Proof.
  intros Hne. revert m. induction items as [|item items IH]; intros m; [done|].
  cbn [fold_left]. rewrite IH. unfold item_store.
  destruct (_ && _); [|done]. by rewrite lookup_insert_ne.
Qed.

Lemma fold_store_insert (items : list (Z * Z)) (m : gmap Z bool) (b : bool) :
  <[chip := b]> (fold_left (item_store read iocon_bank chip) items m)
  = <[chip := b]> m.
Proof.
  revert m. induction items as [|item items IH]; intros m; [done|].
  cbn [fold_left]. rewrite IH. unfold item_store.
  destruct (_ && _); [|done]. by rewrite insert_insert_eq.
Qed.

Lemma fold_store_no_IOCON (items : list (Z * Z)) (m : gmap Z bool) :
  (forall item, item ∈ items ->
     String.eqb (reg_name_of iocon_bank (fst item)) "IOCON" = false) ->
  fold_left (item_store read iocon_bank chip) items m = m.
Proof.
  revert m. induction items as [|item items IH]; intros m Hno; [done|].
  cbn [fold_left]. rewrite IH.
  - unfold item_store. rewrite (Hno item); [done|]. by left.
  - intros item' Hin. apply Hno. by right.
Qed.

Lemma fold_store_last (pre post : list (Z * Z)) (item : Z * Z)
    (m : gmap Z bool) :
  read = false ->
  String.eqb (reg_name_of iocon_bank (fst item)) "IOCON" = true ->
  (forall item', item' ∈ post ->
     String.eqb (reg_name_of iocon_bank (fst item')) "IOCON" = false) ->
  fold_left (item_store read iocon_bank chip) (pre ++ item :: post) m
  = <[chip := Z.testbit (snd item) 7]> m.
Proof.
  intros Hread Hitem Hpost. rewrite fold_left_app. cbn [fold_left].
  rewrite fold_store_no_IOCON by done.
  unfold item_store at 1. rewrite Hitem.
  replace (negb read) with true by (by rewrite Hread). cbn [andb].
  apply fold_store_insert.
Qed.
End store.

Lemma fold_store_is_Some read iocon_bank chip (items : list (Z * Z)) :
  forall (m : gmap Z bool) (key : Z),
    is_Some (m !! key) ->
    is_Some (fold_left (item_store read iocon_bank chip) items m !! key).
Proof.
  induction items as [|item items IH]; intros m key Hm; [done|].
  cbn [fold_left]. apply IH. unfold item_store.
  destruct (_ && _); [|done].
  destruct (decide (chip = key)) as [->|Hne].
  - rewrite lookup_insert_eq. by eexists.
  - by rewrite lookup_insert_ne.
Qed.

(** ** The decoder on one transaction *)

Lemma decode_fields_eq self i2c_frame start_reg values chip iocon_bank :
  LLFrame.data i2c_frame = start_reg :: values ->
  LLFrame.address i2c_frame = Some chip ->
  IOCON_BANK self !! chip = Some iocon_bank ->
  decode_fields self i2c_frame =
  (set_IOCON_BANK self
     (fold_left (item_store (LLFrame.read i2c_frame) iocon_bank chip)
        (enumerate values start_reg) (IOCON_BANK self)),
   Return
     (flat_map (item_fields (show_bits_setting self) iocon_bank)
        (enumerate values start_reg))).
Proof.
  intros Hdata Haddr Hbank. unfold decode_fields.
  rewrite Hdata, Haddr, Hbank. apply decode_loop_eq.
Qed.

Lemma decode_frame_eq self i2c_frame :
  decode_frame self i2c_frame =
  ((decode_fields self i2c_frame).1,
   data ← (decode_fields self i2c_frame).2;
   Return
     (AnalyzerFrame.mk "MCP23017"
        (LLFrame.start_time i2c_frame) (LLFrame.end_time i2c_frame)
        (LLFrame.address i2c_frame)
        (if LLFrame.read i2c_frame then "read" else "write")
        (join "; " data))).
Proof.
  unfold decode_frame. by destruct (decode_fields self i2c_frame) as [? [?|?]].
Qed.

Lemma flat_map_item_fields_plain iocon_bank (items : list (Z * Z)) :
  flat_map (item_fields false iocon_bank) items =
  map (fun item => reg_name_of iocon_bank (fst item) +:+ "=" +:+ format_04x (snd item))
      items.
Proof.
  induction items as [|item items IH]; [done|].
  cbn [flat_map map]. rewrite IH. unfold item_fields.
  by rewrite andb_false_r.
Qed.

(** C4 (as amended): for a transaction with payload [o, v1, ..., vn] the field
    list is the concatenation, in offset order, of one group per value byte;
    the group of the byte at index [i] is resolved at offset [o + i] and is the
    single field [NAME=value], except that with verbose bit expansion on a
    byte at a configuration-register offset gives the seven bit fields.  With
    verbose expansion off there are exactly [n] fields, the [i]-th being the
    one for offset [o + i]. *)
Theorem decode_fields_one_group_per_value
    self i2c_frame start_reg values chip iocon_bank :
  LLFrame.data i2c_frame = start_reg :: values ->
  LLFrame.address i2c_frame = Some chip ->
  IOCON_BANK self !! chip = Some iocon_bank ->
  exists self' groups,
    decode_fields self i2c_frame = (self', Return (concat groups)) /\
    decode_frame self i2c_frame =
      (self',
       Return
         (AnalyzerFrame.mk "MCP23017"
            (LLFrame.start_time i2c_frame) (LLFrame.end_time i2c_frame)
            (Some chip) (if LLFrame.read i2c_frame then "read" else "write")
            (join "; " (concat groups)))) /\
    length groups = length values /\
    (forall (i : nat) regval, values !! i = Some regval ->
       groups !! i =
       Some (if String.eqb (reg_name_of iocon_bank (start_reg + Z.of_nat i)) "IOCON"
                && show_bits_setting self
             then bit_fields regval
             else [reg_name_of iocon_bank (start_reg + Z.of_nat i)
                     +:+ "=" +:+ format_04x regval])) /\
    (show_bits_setting self = false ->
       length (concat groups) = length values /\
       forall (i : nat) regval, values !! i = Some regval ->
         concat groups !! i =
         Some (reg_name_of iocon_bank (start_reg + Z.of_nat i)
                 +:+ "=" +:+ format_04x regval)).
Proof.
  intros Hdata Haddr Hbank.
  pose proof (decode_fields_eq _ _ _ _ _ _ Hdata Haddr Hbank) as Heq.
  eexists _, (map (item_fields (show_bits_setting self) iocon_bank)
                (enumerate values start_reg)).
  rewrite <- flat_map_concat_map. split; [exact Heq|].
  split; [by rewrite decode_frame_eq, Heq, Haddr|].
  split; [by rewrite length_map, enumerate_length|].
  split.
  - intros i regval Hi. rewrite list_lookup_fmap, enumerate_lookup, Hi. done.
  - intros Hplain. rewrite Hplain, flat_map_item_fields_plain.
    split; [by rewrite length_map, enumerate_length|].
    intros i regval Hi. by rewrite list_lookup_fmap, enumerate_lookup, Hi.
Qed.

(** ** The reassembler over event sequences *)

Lemma window_test (a : Z) :
  (START_ADDRESS <=? a) && (a <? START_ADDRESS + N_ADDRESSES) = true
  <-> in_window a.
Proof. unfold in_window. rewrite andb_true_iff, Z.leb_le, Z.ltb_lt. done. Qed.

Lemma ll_run_app (frames1 frames2 : list Frame) : forall self,
  ll_run self (frames1 ++ frames2) =
  ((ll_run (ll_run self frames1).1 frames2).1,
   (ll_run self frames1).2 ++ (ll_run (ll_run self frames1).1 frames2).2).
Proof.
  induction frames1 as [|frame frames1 IH]; intros self; cbn [ll_run app].
  - cbn [fst snd app]. by destruct (ll_run self frames2).
  - destruct (ll_fsm self frame) as [self1 out]. rewrite IH.
    destruct (ll_run self1 frames1) as [self2 outs]. cbn [fst snd].
    by destruct (ll_run self2 frames2).
Qed.

Lemma ll_run_length (frames : list Frame) : forall self,
  length (ll_run self frames).2 = length frames.
Proof.
  induction frames as [|frame frames IH]; intros self; cbn [ll_run]; [done|].
  destruct (ll_fsm self frame) as [self1 out]. specialize (IH self1).
  destruct (ll_run self1 frames). cbn in *. by rewrite IH.
Qed.

Lemma ll_fsm_DATA_data self st et d ack :
  state self = DATA ->
  ll_fsm self (FData st et d ack) = (set_data self (data self ++ d), None).
Proof. intros Hstate. unfold ll_fsm. by rewrite Hstate. Qed.

Lemma ll_fsm_DATA_stop self st et :
  state self = DATA ->
  ll_fsm self (FStop st et) =
  (reset self,
   Some (LLFrame.mk (start_time self) et (data self) (read self) (address self))).
Proof. intros Hstate. unfold ll_fsm. rewrite Hstate. by destruct self. Qed.

Lemma ll_fsm_START_address self st et a r :
  state self = START -> in_window a ->
  ll_fsm self (FAddress st et a r true) =
  (set_state (set_address (set_read self (read self || r)) (Some a)) DATA, None).
Proof.
  intros Hstate Ha. unfold ll_fsm. rewrite Hstate.
  by rewrite (proj2 (window_test a) Ha).
Qed.

Lemma ll_run_data (datas : list Frame) : forall self,
  state self = DATA -> Forall is_data_frame datas ->
  ll_run self datas =
  (set_data self (data self ++ payload_of datas), replicate (length datas) None).
Proof.
  induction datas as [|frame datas IH]; intros self Hstate Hdatas.
  - cbn. rewrite app_nil_r. by destruct self.
  - inversion Hdatas as [|? ? Hframe Hrest]; subst.
    destruct frame; try done. cbn [ll_run]. rewrite ll_fsm_DATA_data by done.
    rewrite IH by (done || by destruct self).
    cbn [length replicate payload_of flat_map].
    destruct self; cbn. by rewrite <- app_assoc.
Qed.

Lemma ll_fsm_emits self frame self' i2c_frame :
  ll_fsm self frame = (self', Some i2c_frame) ->
  state self = DATA /\ (exists st et, frame = FStop st et) /\
  LLFrame.address i2c_frame = address self /\
  LLFrame.data i2c_frame = data self /\
  LLFrame.read i2c_frame = read self /\
  LLFrame.start_time i2c_frame = start_time self.
Proof.
  unfold ll_fsm. destruct (state self) eqn:Hstate, frame as [| ? ? ? ? []| | |];
    try (intros [= <- <-]; cbn; by eauto 10); try done.
  case_match; done.
Qed.

Lemma ll_fsm_DATA_start self st et :
  state self = DATA -> ll_fsm self (FStart st et) = (set_state self START, None).
Proof. intros Hstate. unfold ll_fsm. by rewrite Hstate. Qed.

(** C2 (as amended): a Start event processed in the DATA state emits nothing
    and moves the machine to START, and it keeps the payload buffer, the start
    time, the direction flag and the address.  When the restarted transaction
    is then addressed (acknowledged, inside the window), carries data and is
    closed by a Stop, the one transaction emitted has the bytes buffered
    before the repeated start followed by the new ones, the start time of the
    first Start, and the two direction flags or-ed. *)
Theorem repeated_start_keeps_payload self st et :
  state self = DATA ->
  ll_fsm self (FStart st et) = (set_state self START, None) /\
  (let self' := (ll_fsm self (FStart st et)).1 in
   state self' = START /\ data self' = data self /\
   start_time self' = start_time self /\ read self' = read self /\
   address self' = address self) /\
  forall a r st1 et1 datas st2 et2,
    in_window a -> Forall is_data_frame datas ->
    ll_run self
      (FStart st et :: FAddress st1 et1 a r true :: datas ++ [FStop st2 et2]) =
    (reset self,
     None :: None :: replicate (length datas) None ++
       [Some (LLFrame.mk (start_time self) et2 (data self ++ payload_of datas)
                (read self || r) (Some a))]).
Proof.
  intros Hstate. rewrite ll_fsm_DATA_start by done.
  split; [done|]. split; [by destruct self|].
  intros a r st1 et1 datas st2 et2 Ha Hdatas.
  cbn [ll_run]. rewrite ll_fsm_DATA_start by done.
  rewrite ll_fsm_START_address by done.
  rewrite ll_run_app, (ll_run_data datas) by done. cbn [fst snd ll_run].
  rewrite ll_fsm_DATA_stop by done. by destruct self.
Qed.

Lemma repeated_start_keeps_payload_witness :
  let self := (ll_run (init false false)
                 [FStart 0 1; FAddress 1 2 0x20 false true; FData 2 3 [0x12] true]).1 in
  state self = DATA /\ data self = [0x12] /\
  ll_fsm self (FStart 5 6) = (set_state self START, None) /\
  (ll_run self [FStart 5 6; FAddress 6 7 0x20 true true; FData 7 8 [0x05] true;
                FStop 9 10]).2 =
    [None; None; None;
     Some (LLFrame.mk (Some 0) 10 [0x12; 0x05] true (Some 0x20))].
Proof.
  intros self.
  destruct (repeated_start_keeps_payload self 5 6) as (Hstep & _ & Hrun);
    [reflexivity|].
  split; [reflexivity|]. split; [reflexivity|]. split; [exact Hstep|].
  change (ll_run self [FStart 5 6; FAddress 6 7 0x20 true true;
                       FData 7 8 [0x05] true; FStop 9 10])
    with (ll_run self (FStart 5 6 :: FAddress 6 7 0x20 true true ::
                       [FData 7 8 [0x05] true] ++ [FStop 9 10])).
  rewrite (Hrun 0x20 true 6 7 [FData 7 8 [0x05] true] 9 10).
  - reflexivity.
  - unfold in_window, START_ADDRESS, N_ADDRESSES. lia.
  - by repeat constructor.
Defined.

(** C2, counterexample: a register read as the device expects it -- the
    register offset written, a repeated start, then the read.  After the
    repeated start the buffer still holds the offset byte and the start time
    is still that of the first Start; the transaction emitted at the Stop
    contains the byte buffered before the repeated start. *)
Lemma repeated_start_discards_counterexample :
  let frames :=
    [FStart 0 1; FAddress 1 2 0x20 false true; FData 2 3 [0x12] true;
     FStart 5 6; FAddress 6 7 0x20 true true; FData 7 8 [0x05] true;
     FStop 9 10] in
  let before := (ll_run (init false false) (take 3 frames)).1 in
  let after := (ll_fsm before (FStart 5 6)).1 in
  state before = DATA /\ data before = [0x12] /\
  state after = START /\ data after <> [] /\ start_time after <> Some 5 /\
  (ll_run (init false false) frames).2 =
    [None; None; None; None; None; None;
     Some (LLFrame.mk (Some 0) 10 [0x12; 0x05] true (Some 0x20))].
Proof. cbv zeta. repeat split; try reflexivity; vm_compute; discriminate. Qed.

(** ** No transaction without an acknowledged address in the window *)

Lemma addressed_init iocon_bank show_bits : addressed [] (init iocon_bank show_bits).
Proof. intros Hstate. discriminate Hstate. Qed.

Lemma addressed_step frames self frame :
  addressed frames self -> addressed (frames ++ [frame]) (ll_fsm self frame).1.
Proof.
  intros Hinv. unfold ll_fsm.
  destruct (state self) eqn:Hstate.
  - destruct frame; intros Hst; discriminate Hst.
  - destruct frame as [| st et a r [|] | | |]; try (intros Hst; discriminate Hst).
    destruct (_ && _) eqn:Hwin; [|intros Hst; discriminate Hst].
    intros _. exists (length frames), a, st, et, r.
    split; [by rewrite list_lookup_middle|].
    split; [by apply window_test|]. split; [done|].
    intros k frame Hk Hlook. apply lookup_lt_Some in Hlook.
    rewrite length_app in Hlook. cbn in Hlook. lia.
  - destruct frame as [| | st et d ack | |]; try (intros Hst; discriminate Hst).
    intros _. destruct (Hinv Hstate) as (i & a & st' & et' & r & Hi & Ha & Haddr & Hafter).
    exists i, a, st', et', r.
    split; [by apply lookup_app_l_Some|]. split; [done|]. split; [done|].
    intros k frame Hk Hlook.
    destruct (decide (k < length frames)%nat) as [Hlt|Hge].
    + rewrite lookup_app_l in Hlook by done. by eapply Hafter.
    + rewrite lookup_app_r in Hlook by lia.
      destruct (k - length frames)%nat; [|done]. by injection Hlook as <-.
Qed.

Lemma emitted_after_ack_app frames frame j i2c_frame :
  emitted_after_ack frames j i2c_frame ->
  emitted_after_ack (frames ++ [frame]) j i2c_frame.
Proof.
  intros (i & a & st & et & r & Hij & Hi & Ha & Haddr & Hbetween & st' & et' & Hj).
  exists i, a, st, et, r. split; [done|].
  split; [by apply lookup_app_l_Some|]. split; [done|]. split; [done|].
  pose proof (lookup_lt_Some _ _ _ Hj) as Hlen.
  split; [|exists st', et'; by apply lookup_app_l_Some].
  intros k frame' Hk Hlook. rewrite lookup_app_l in Hlook by lia.
  by eapply Hbetween.
Qed.

Lemma ll_run_emitted iocon_bank show_bits (frames : list Frame) :
  addressed frames (ll_run (init iocon_bank show_bits) frames).1 /\
  forall (j : nat) i2c_frame,
    (ll_run (init iocon_bank show_bits) frames).2 !! j = Some (Some i2c_frame) ->
    emitted_after_ack frames j i2c_frame.
Proof.
  induction frames as [|frame frames [IHinv IHout]] using rev_ind.
  - split; [apply addressed_init|]. intros j t Hj. done.
  - rewrite ll_run_app. cbn [fst snd ll_run].
    pose proof (ll_run_length frames (init iocon_bank show_bits)) as Hlen.
    destruct (ll_run (init iocon_bank show_bits) frames) as [self outs].
    cbn [fst snd] in *.
    pose proof (addressed_step _ _ frame IHinv) as Hstep.
    destruct (ll_fsm self frame) as [self' out] eqn:Hfsm. cbn [fst snd] in *.
    split; [done|]. intros j t Hj.
    destruct (decide (j < length outs)%nat) as [Hlt|Hge].
    + rewrite lookup_app_l in Hj by done.
      by apply emitted_after_ack_app, IHout.
    + rewrite lookup_app_r in Hj by lia.
      destruct (j - length outs)%nat eqn:Hjn; [|done].
      injection Hj as ->. assert (j = length frames) as -> by lia.
      apply ll_fsm_emits in Hfsm as (Hstate & (st' & et' & ->) & Haddr & _).
      destruct (IHinv Hstate) as (i & a & st & et & r & Hi & Ha & Hself & Hafter).
      exists i, a, st, et, r.
      pose proof (lookup_lt_Some _ _ _ Hi) as Hilt.
      split; [done|]. split; [by apply lookup_app_l_Some|]. split; [done|].
      split; [congruence|]. split.
      * intros k frame' Hk Hlook. rewrite lookup_app_l in Hlook by lia.
        eapply Hafter; [|done]. lia.
      * exists st', et'. by rewrite list_lookup_middle.
Qed.

(** ** Traffic for another device *)

Lemma reset_reset self : reset (reset self) = reset self.
Proof. by destruct self. Qed.

Lemma decode_no_frame self frame self' :
  ll_fsm self frame = (self', None) -> decode self frame = (self', Return None).
Proof. intros Hfsm. unfold decode. by rewrite Hfsm. Qed.

Lemma ll_fsm_idle_stays self frame :
  not_start_frame frame -> ll_fsm (reset self) frame = (reset self, None).
Proof.
  intros Hframe. unfold ll_fsm. replace (state (reset self)) with IDLE by done.
  destruct frame; try done; by rewrite reset_reset.
Qed.

Lemma decode_all_idle (frames : list Frame) self :
  Forall not_start_frame frames ->
  decode_all (reset self) frames =
  (reset self, replicate (length frames) None, None).
Proof.
  induction 1 as [|frame frames Hframe _ IH]; [done|].
  cbn [decode_all]. rewrite (decode_no_frame _ _ (reset self))
    by by apply ll_fsm_idle_stays.
  by rewrite IH.
Qed.

Lemma ll_fsm_foreign_address self st et st1 et1 a r ack :
  ~ in_window a ->
  exists self1,
    ll_fsm self (FStart st et) = (self1, None) /\
    ll_fsm self1 (FAddress st1 et1 a r ack) = (reset self, None).
Proof.
  intros Ha.
  assert ((START_ADDRESS <=? a) && (a <? START_ADDRESS + N_ADDRESSES) = false)
    as Hwin.
  { apply not_true_is_false. by rewrite window_test. }
  clear Ha. rename Hwin into Ha.
  unfold ll_fsm at 1. destruct (state self) eqn:Hstate.
  - eexists. split; [done|]. unfold ll_fsm. cbn [state set_start_time set_state].
    destruct ack; [rewrite Ha|]; by destruct self.
  - eexists. split; [done|]. by rewrite ll_fsm_idle_stays.
  - eexists. split; [done|]. unfold ll_fsm. cbn [state set_state].
    destruct ack; [rewrite Ha|]; by destruct self.
Qed.

Lemma decode_all_foreign_address self st et st1 et1 a r ack frames :
  ~ in_window a -> Forall not_start_frame frames ->
  decode_all self (FStart st et :: FAddress st1 et1 a r ack :: frames) =
  (reset self, None :: None :: replicate (length frames) None, None).
Proof.
  intros Ha Hframes.
  destruct (ll_fsm_foreign_address self st et st1 et1 a r ack Ha)
    as (self1 & Hstart & Haddr).
  cbn [decode_all].
  rewrite (decode_no_frame _ _ _ Hstart), (decode_no_frame _ _ _ Haddr).
  by rewrite decode_all_idle.
Qed.

(** ** Positions in a payload *)

Lemma enumerate_app {A} (l1 l2 : list A) : forall start,
  enumerate (l1 ++ l2) start =
  enumerate l1 start ++ enumerate l2 (start + Z.of_nat (length l1)).
Proof.
  induction l1 as [|x l1 IH]; intros start; cbn [enumerate app length].
  - by rewrite Z.add_0_r.
  - rewrite IH. do 3 f_equal. lia.
Qed.

Lemma enumerate_split {A} (l : list A) start (i : nat) x :
  l !! i = Some x ->
  enumerate l start =
  enumerate (take i l) start ++
    (start + Z.of_nat i, x) :: enumerate (drop (S i) l) (start + Z.of_nat i + 1).
Proof.
  intros Hi. rewrite <- (take_drop_middle l i x Hi) at 1.
  rewrite enumerate_app. cbn [enumerate].
  pose proof (lookup_lt_Some _ _ _ Hi).
  by rewrite length_take_le by lia.
Qed.

Lemma enumerate_drop_elem {A} (l : list A) start (i : nat) item :
  item ∈ enumerate (drop (S i) l) (start + Z.of_nat i + 1) ->
  exists (j : nat) x,
    (i < j)%nat /\ l !! j = Some x /\ item = (start + Z.of_nat j, x).
Proof.
  intros Hin. apply list_elem_of_lookup in Hin as [k Hk].
  rewrite enumerate_lookup, lookup_drop in Hk.
  destruct (l !! (S i + k)%nat) as [x|] eqn:Hx; [|done].
  injection Hk as <-. exists (S i + k)%nat, x.
  split; [lia|]. split; [done|]. f_equal. lia.
Qed.

Lemma fold_store_last_write iocon_bank chip (m : gmap Z bool)
    start_reg (values : list Z) (i : nat) regval :
  values !! i = Some regval ->
  reg_name_of iocon_bank (start_reg + Z.of_nat i) = "IOCON" ->
  (forall (j : nat) w, (i < j)%nat -> values !! j = Some w ->
     reg_name_of iocon_bank (start_reg + Z.of_nat j) <> "IOCON") ->
  fold_left (item_store false iocon_bank chip) (enumerate values start_reg) m
  = <[chip := Z.testbit regval 7]> m.
Proof.
  intros Hi Hname Hlast. rewrite (enumerate_split _ _ _ _ Hi).
  apply (fold_store_last false iocon_bank chip _ _ (_, regval)).
  - done.
  - cbn [fst]. by rewrite Hname.
  - intros item Hin.
    apply enumerate_drop_elem in Hin as (j & w & Hj & Hw & ->). cbn [fst].
    apply String.eqb_neq. by eapply Hlast.
Qed.

Lemma groups_lookup show_bits iocon_bank start_reg (values : list Z) (i : nat) regval :
  values !! i = Some regval ->
  map (item_fields show_bits iocon_bank) (enumerate values start_reg) !! i =
  Some (if String.eqb (reg_name_of iocon_bank (start_reg + Z.of_nat i)) "IOCON"
           && show_bits
        then bit_fields regval
        else [reg_name_of iocon_bank (start_reg + Z.of_nat i)
                +:+ "=" +:+ format_04x regval]).
Proof. intros Hi. by rewrite list_lookup_fmap, enumerate_lookup, Hi. Qed.

(** ** Bank-mode state *)

Lemma decode_frame_state self i2c_frame :
  (decode_frame self i2c_frame).1 = (decode_fields self i2c_frame).1.
Proof. by rewrite decode_frame_eq. Qed.

(** The state [decode] leaves, in every case, the exceptions included. *)
Lemma decode_fields_state self i2c_frame :
  (decode_fields self i2c_frame).1 = self \/
  exists start_reg values chip iocon_bank,
    LLFrame.data i2c_frame = start_reg :: values /\
    LLFrame.address i2c_frame = Some chip /\
    IOCON_BANK self !! chip = Some iocon_bank /\
    (decode_fields self i2c_frame).1 =
    set_IOCON_BANK self
      (fold_left (item_store (LLFrame.read i2c_frame) iocon_bank chip)
         (enumerate values start_reg) (IOCON_BANK self)).
Proof.
  destruct (LLFrame.data i2c_frame) as [|start_reg values] eqn:Hdata;
    [left; unfold decode_fields; by rewrite Hdata|].
  destruct (LLFrame.address i2c_frame) as [chip|] eqn:Haddr;
    [|left; unfold decode_fields; by rewrite Hdata, Haddr].
  destruct (IOCON_BANK self !! chip) as [iocon_bank|] eqn:Hbank;
    [|left; unfold decode_fields; by rewrite Hdata, Haddr, Hbank].
  right. exists start_reg, values, chip, iocon_bank.
  by rewrite (decode_fields_eq _ _ _ _ _ _ Hdata Haddr Hbank).
Qed.

Lemma decode_frame_read self i2c_frame :
  LLFrame.read i2c_frame = true -> (decode_frame self i2c_frame).1 = self.
Proof.
  intros Hread. rewrite decode_frame_state.
  destruct (decode_fields_state self i2c_frame)
    as [->|(o & vs & chip & b & _ & _ & _ & ->)]; [done|].
  by rewrite fold_store_read, set_IOCON_BANK_id.
Qed.

Lemma decode_frame_other self i2c_frame other :
  LLFrame.address i2c_frame <> Some other ->
  IOCON_BANK (decode_frame self i2c_frame).1 !! other = IOCON_BANK self !! other.
Proof.
  intros Hother. rewrite decode_frame_state.
  destruct (decode_fields_state self i2c_frame)
    as [->|(o & vs & chip & b & _ & Haddr & _ & ->)]; [done|].
  cbn [IOCON_BANK set_IOCON_BANK]. apply fold_store_other. congruence.
Qed.

Lemma decode_frame_settings self i2c_frame :
  show_bits_setting (decode_frame self i2c_frame).1 = show_bits_setting self.
Proof.
  rewrite decode_frame_state.
  by destruct (decode_fields_state self i2c_frame)
    as [->|(o & vs & chip & b & _ & _ & _ & ->)].
Qed.

Lemma ll_fsm_IOCON_BANK self frame :
  IOCON_BANK (ll_fsm self frame).1 = IOCON_BANK self /\
  show_bits_setting (ll_fsm self frame).1 = show_bits_setting self.
Proof.
  unfold ll_fsm.
  destruct (state self), frame as [| ? ? ? ? []| | |]; try done.
  by case_match.
Qed.

Lemma decode_state self frame :
  (decode self frame).1 =
  match (ll_fsm self frame).2 with
  | Some i2c_frame => (decode_frame (ll_fsm self frame).1 i2c_frame).1
  | None => (ll_fsm self frame).1
  end.
Proof.
  unfold decode. destruct (ll_fsm self frame) as [self1 [i2c_frame|]]; [|done].
  cbn [fst snd]. by destruct (decode_frame self1 i2c_frame) as [? [?|?]].
Qed.

(** ** The only exception *)

Lemma init_lookup iocon_bank show_bits a :
  in_window a -> IOCON_BANK (init iocon_bank show_bits) !! a = Some iocon_bank.
Proof.
  unfold in_window, START_ADDRESS, N_ADDRESSES. intros Ha.
  assert (a = 0x20 \/ a = 0x21 \/ a = 0x22 \/ a = 0x23 \/
          a = 0x24 \/ a = 0x25 \/ a = 0x26 \/ a = 0x27) as Hcases by lia.
  destruct iocon_bank;
    repeat (destruct Hcases as [->|Hcases]; [reflexivity|]); by subst.
Qed.

Lemma ready_init iocon_bank show_bits : ready (init iocon_bank show_bits).
Proof.
  split; [|intros Hstate; discriminate Hstate].
  intros a Ha. rewrite init_lookup by done. by eexists.
Qed.

Lemma ready_ll_fsm self frame : ready self -> ready (ll_fsm self frame).1.
Proof.
  intros [Hdom Haddr].
  split; [by rewrite (proj1 (ll_fsm_IOCON_BANK self frame))|].
  unfold ll_fsm. destruct (state self) eqn:Hstate.
  - destruct frame; intros Hst; discriminate Hst.
  - destruct frame as [| st et a r [|] | | |]; try (intros Hst; discriminate Hst).
    destruct (_ && _) eqn:Hwin; [|intros Hst; discriminate Hst].
    intros _. exists a. split; [done|]. by apply window_test.
  - destruct frame; try (intros Hst; discriminate Hst). intros _.
    destruct (Haddr eq_refl) as (a & Ha & Hwin). by exists a.
Qed.

Lemma ready_decode_frame self i2c_frame :
  ready self -> state self <> DATA ->
  ready (decode_frame self i2c_frame).1.
Proof.
  intros [Hdom _] Hstate. rewrite decode_frame_state.
  destruct (decode_fields_state self i2c_frame)
    as [->|(o & vs & chip & b & _ & _ & _ & ->)];
    (split; [|intros Hst; by destruct self]).
  - done.
  - intros a Ha. cbn [IOCON_BANK set_IOCON_BANK]. by apply fold_store_is_Some, Hdom.
Qed.

(** One step of the pipeline on a [ready] analyzer: the analyzer stays
    [ready], and the only exception is the [IndexError] of an emitted
    transaction with an empty payload. *)
Lemma ready_decode self frame :
  ready self ->
  ready (decode self frame).1 /\
  (forall e, (decode self frame).2 = Raise e ->
     e = IndexError /\
     exists i2c_frame,
       (ll_fsm self frame).2 = Some i2c_frame /\ LLFrame.data i2c_frame = []) /\
  (forall out, (decode self frame).2 = Return (Some out) ->
     exists a, AnalyzerFrame.data_address out = Some a /\ in_window a).
Proof.
  intros Hready. pose proof (ready_ll_fsm self frame Hready) as Hready1.
  rewrite decode_state. unfold decode.
  destruct (ll_fsm self frame) as [self1 [i2c_frame|]] eqn:Hfsm; cbn [fst snd] in *;
    [|split; [done|]; split; [intros e He|intros out He]; discriminate He].
  apply ll_fsm_emits in Hfsm as Hemit.
  destruct Hemit as (Hstate & (st & et & ->) & Haddr & _).
  assert (state self1 = IDLE) as Hidle.
  { rewrite ll_fsm_DATA_stop in Hfsm by done. injection Hfsm as <- _.
    by destruct self. }
  split; [apply ready_decode_frame; [done|congruence]|].
  destruct (proj2 Hready Hstate) as (a & Ha & Hwin).
  destruct (proj1 Hready1 a Hwin) as [b Hb].
  rewrite decode_frame_eq.
  destruct (LLFrame.data i2c_frame) as [|o vs] eqn:Hdata.
  - unfold decode_fields. rewrite Hdata. cbn.
    split; [intros e [= <-]; split; [done|by eexists]|intros out He; discriminate He].
  - rewrite (decode_fields_eq self1 i2c_frame o vs a b) by congruence. cbn.
    split; [intros e He; discriminate He|].
    intros out [= <-]. exists a. split; [cbn; congruence|done].
Qed.

(** From construction on, over any event sequence, the pipeline raises
    nothing but that [IndexError]. *)
Lemma decode_all_raises_only_IndexError iocon_bank show_bits (frames : list Frame) e :
  (decode_all (init iocon_bank show_bits) frames).2 = Some e -> e = IndexError.
Proof.
  pose proof (ready_init iocon_bank show_bits) as Hready.
  revert Hready. generalize (init iocon_bank show_bits) as self.
  induction frames as [|frame frames IH]; intros self Hready; [done|].
  cbn [decode_all]. destruct (ready_decode self frame Hready) as (Hready' & Hexn & _).
  destruct (decode self frame) as [self1 [out|e']]; cbn [fst snd] in *.
  - specialize (IH self1 Hready').
    destruct (decode_all self1 frames) as [[? ?] ?]. exact IH.
  - intros [= <-]. by destruct (Hexn e' eq_refl).
Qed.

(** From construction on, every decoded record is for a chip address of the
    window. *)
Lemma decode_all_records_in_window iocon_bank show_bits (frames : list Frame) out :
  Some out ∈ (decode_all (init iocon_bank show_bits) frames).1.2 ->
  exists a, AnalyzerFrame.data_address out = Some a /\ in_window a.
Proof.
  pose proof (ready_init iocon_bank show_bits) as Hready.
  revert Hready. generalize (init iocon_bank show_bits) as self.
  induction frames as [|frame frames IH]; intros self Hready;
    [intros Hin; by apply elem_of_nil in Hin|].
  cbn [decode_all]. destruct (ready_decode self frame Hready) as (Hready' & _ & Hout).
  destruct (decode self frame) as [self1 [out'|e']]; cbn [fst snd] in *;
    [|intros Hin; by apply elem_of_nil in Hin].
  specialize (IH self1 Hready').
  destruct (decode_all self1 frames) as [[? outs] ?]. cbn [fst snd] in *.
  intros [Heq|Hin]%elem_of_cons; [|by apply IH].
  apply Hout. by rewrite Heq.
Qed.

(** C6: from construction on, every transaction the reassembler emits comes
    from a Stop frame that is preceded by an acknowledged address frame whose
    address lies in the window 0x20..0x27 and is the transaction's chip
    address, with only data frames in between (so that address frame is the
    transaction's address phase).  And from any state, a Start / Address /
    Data... / Stop sequence addressed to chip 0x30 gives no decoded record
    (and no exception), acknowledged or not; every record the pipeline does
    give is for a chip address in the window. *)
Theorem emitted_only_for_watched_acknowledged_address :
  (forall iocon_bank show_bits (frames : list Frame) (j : nat) i2c_frame,
     (ll_run (init iocon_bank show_bits) frames).2 !! j = Some (Some i2c_frame) ->
     exists (i : nat) a st et r,
       (i < j)%nat /\ frames !! i = Some (FAddress st et a r true) /\
       0x20 <= a <= 0x27 /\
       LLFrame.address i2c_frame = Some a /\
       (forall (k : nat) frame,
          (i < k < j)%nat -> frames !! k = Some frame -> is_data_frame frame) /\
       exists st' et', frames !! j = Some (FStop st' et')) /\
  (forall iocon_bank show_bits (frames : list Frame) out,
     Some out ∈ (decode_all (init iocon_bank show_bits) frames).1.2 ->
     exists a, AnalyzerFrame.data_address out = Some a /\ 0x20 <= a <= 0x27) /\
  (forall self st et st1 et1 r ack datas st2 et2,
     Forall is_data_frame datas ->
     decode_all self
       (FStart st et :: FAddress st1 et1 0x30 r ack :: datas ++ [FStop st2 et2]) =
     (reset self, replicate (length datas + 3) None, None)).
Proof.
  split; [|split].
  - intros iocon_bank show_bits frames j i2c_frame Hj.
    destruct (ll_run_emitted iocon_bank show_bits frames) as [_ Hout].
    destruct (Hout j i2c_frame Hj)
      as (i & a & st & et & r & Hij & Hi & Ha & Haddr & Hbetween & Hstop).
    exists i, a, st, et, r. unfold START_ADDRESS, N_ADDRESSES in Ha.
    repeat split; try done; lia.
  - intros iocon_bank show_bits frames out Hin.
    destruct (decode_all_records_in_window _ _ _ _ Hin) as (a & Ha & Hwin).
    exists a. unfold in_window, START_ADDRESS, N_ADDRESSES in Hwin.
    split; [done|lia].
  - intros self st et st1 et1 r ack datas st2 et2 Hdatas.
    rewrite decode_all_foreign_address.
    + rewrite length_app, Nat.add_comm. cbn [length Nat.add].
      by rewrite Nat.add_comm.
    + unfold in_window, START_ADDRESS, N_ADDRESSES. lia.
    + apply Forall_app. split; [|by repeat constructor].
      eapply Forall_impl; [exact Hdatas|]. by intros [].
Qed.

Lemma emitted_only_for_watched_acknowledged_address_witness :
  let frames :=
    [FStart 0 1; FAddress 1 2 0x30 false true; FData 2 3 [0x0a] true;
     FStop 3 4; FStart 5 6; FAddress 6 7 0x21 false true;
     FData 7 8 [0x0a] true; FData 8 9 [0x80] true; FStop 9 10] in
  (ll_run (init false false) frames).2 !! 8%nat
    = Some (Some (LLFrame.mk (Some 5) 10 [0x0a; 0x80] false (Some 0x21))) /\
  (exists (i : nat) a st et r,
     (i < 8)%nat /\ frames !! i = Some (FAddress st et a r true) /\
     0x20 <= a <= 0x27) /\
  decode_all (init false false) (take 4 frames) =
    (reset (init false false), replicate (1 + 3) None, None).
Proof.
  intros frames.
  pose proof emitted_only_for_watched_acknowledged_address
    as (Hemit & _ & Hforeign).
  split; [reflexivity|]. split.
  - destruct (Hemit false false frames 8%nat
                (LLFrame.mk (Some 5) 10 [0x0a; 0x80] false (Some 0x21)) eq_refl)
      as (i & a & st & et & r & Hi & Hlook & Ha & _).
    by exists i, a, st, et, r.
  - apply (Hforeign (init false false) 0 1 1 2 false true [FData 2 3 [0x0a] true] 3 4).
    by repeat constructor.
Defined.

(** C1 (the code departs from it): [decode] indexes [data[0]] before anything
    else, so a transaction with an empty payload raises [IndexError]; the
    reassembler emits such a transaction for an acknowledged address in the
    window that is followed directly by a Stop.  That [IndexError] is the
    only exception the pipeline raises after construction. *)
Theorem decode_empty_payload_raises :
  (forall self st et r a,
     decode_frame self (LLFrame.mk st et [] r a) = (self, Raise IndexError)) /\
  (forall iocon_bank show_bits,
     (ll_run (init iocon_bank show_bits)
        [FStart 0 1; FAddress 1 2 0x20 false true; FStop 2 3]).2 =
       [None; None; Some (LLFrame.mk (Some 0) 3 [] false (Some 0x20))] /\
     decode_all (init iocon_bank show_bits)
       [FStart 0 1; FAddress 1 2 0x20 false true; FStop 2 3] =
       (init iocon_bank show_bits, [None; None], Some IndexError)) /\
  (forall iocon_bank show_bits (frames : list Frame) e,
     (decode_all (init iocon_bank show_bits) frames).2 = Some e ->
     e = IndexError).
Proof.
  split; [done|]. split; [by intros [|] [|]|].
  apply decode_all_raises_only_IndexError.
Qed.

Lemma decode_empty_payload_raises_witness :
  let frames := [FStart 0 1; FAddress 1 2 0x20 false true; FStop 2 3] in
  (decode_all (init false false) frames).2 = Some IndexError /\
  IndexError = IndexError.
Proof.
  intros frames. split; [reflexivity|].
  apply (proj2 (proj2 decode_empty_payload_raises) false false frames IndexError).
  reflexivity.
Defined.

(** C8: decoding a read transaction leaves the analyzer, and with it the
    bank-mode table, exactly as it was -- whatever the payload, and also when
    decoding raises.  In the pipeline, an event that makes the reassembler
    emit a read transaction (or nothing) leaves the bank-mode table
    unchanged. *)
Theorem read_never_changes_bank_mode :
  (forall self i2c_frame,
     LLFrame.read i2c_frame = true ->
     (decode_frame self i2c_frame).1 = self /\
     IOCON_BANK (decode_frame self i2c_frame).1 = IOCON_BANK self) /\
  (forall self frame,
     (forall i2c_frame, (ll_fsm self frame).2 = Some i2c_frame ->
        LLFrame.read i2c_frame = true) ->
     IOCON_BANK (decode self frame).1 = IOCON_BANK self).
Proof.
  split.
  - intros self i2c_frame Hread. by rewrite decode_frame_read.
  - intros self frame Hread. rewrite decode_state.
    destruct (ll_fsm_IOCON_BANK self frame) as [Hbank _].
    destruct ((ll_fsm self frame).2) as [i2c_frame|]; [|done].
    by rewrite decode_frame_read by by apply Hread.
Qed.

Lemma read_never_changes_bank_mode_witness :
  let self := init false false in
  let i2c_frame := LLFrame.mk (Some 0) 9 [0x0a; 0xff; 0x80] true (Some 0x20) in
  LLFrame.read i2c_frame = true /\
  (decode_frame self i2c_frame).2 =
    Return (AnalyzerFrame.mk "MCP23017" (Some 0) 9 (Some 0x20) "read"
              "IOCON=0xff; IOCON=0x80") /\
  IOCON_BANK (decode_frame self i2c_frame).1 = IOCON_BANK self.
Proof.
  intros self i2c_frame. split; [reflexivity|]. split; [reflexivity|].
  apply (proj1 read_never_changes_bank_mode self i2c_frame). reflexivity.
Defined.

Lemma leaves_mode_lookup self chip iocon_bank i2c_frame :
  IOCON_BANK self !! chip = Some iocon_bank ->
  leaves_mode chip iocon_bank i2c_frame ->
  IOCON_BANK (decode_frame self i2c_frame).1 !! chip = Some iocon_bank.
Proof.
  intros Hbank [Hread|[Hother|Hplain]].
  - by rewrite decode_frame_read.
  - by rewrite decode_frame_other.
  - destruct (decide (LLFrame.address i2c_frame = Some chip)) as [Haddr|Hother];
      [|by rewrite decode_frame_other].
    rewrite decode_frame_state.
    destruct (decode_fields_state self i2c_frame)
      as [->|(o & vs & chip' & b & Hdata & Haddr' & Hbank' & ->)]; [done|].
    assert (chip' = chip) as -> by congruence.
    assert (b = iocon_bank) as -> by congruence.
    cbn [IOCON_BANK set_IOCON_BANK]. rewrite fold_store_no_IOCON; [done|].
    intros item Hin. apply list_elem_of_lookup in Hin as [j Hj].
    rewrite enumerate_lookup in Hj.
    destruct (vs !! j) as [w|] eqn:Hw; [|done]. injection Hj as <-.
    apply String.eqb_neq. by eapply Hplain.
Qed.

Lemma decode_frames_leaves_mode chip iocon_bank (i2c_frames : list LLFrame.t) :
  Forall (leaves_mode chip iocon_bank) i2c_frames ->
  forall self,
    IOCON_BANK self !! chip = Some iocon_bank ->
    IOCON_BANK (decode_frames self i2c_frames) !! chip = Some iocon_bank /\
    show_bits_setting (decode_frames self i2c_frames) = show_bits_setting self.
Proof.
  induction 1 as [|i2c_frame i2c_frames Hframe _ IH]; intros self Hbank; [done|].
  unfold decode_frames. cbn [fold_left].
  destruct (IH (decode_frame self i2c_frame).1) as [Hb Hs];
    [by apply leaves_mode_lookup|].
  split; [done|]. unfold decode_frames in Hs. by rewrite Hs, decode_frame_settings.
Qed.

(** The field groups of one transaction, all resolved with one bank mode. *)
Lemma decode_fields_groups self i2c_frame start_reg values chip iocon_bank :
  LLFrame.data i2c_frame = start_reg :: values ->
  LLFrame.address i2c_frame = Some chip ->
  IOCON_BANK self !! chip = Some iocon_bank ->
  exists groups,
    decode_fields self i2c_frame =
      ((decode_fields self i2c_frame).1, Return (concat groups)) /\
    length groups = length values /\
    forall (j : nat) w, values !! j = Some w ->
      groups !! j =
      Some (if String.eqb (reg_name_of iocon_bank (start_reg + Z.of_nat j)) "IOCON"
               && show_bits_setting self
            then bit_fields w
            else [reg_name_of iocon_bank (start_reg + Z.of_nat j)
                    +:+ "=" +:+ format_04x w]).
Proof.
  intros Hdata Haddr Hbank.
  exists (map (item_fields (show_bits_setting self) iocon_bank)
            (enumerate values start_reg)).
  rewrite (decode_fields_eq _ _ _ _ _ _ Hdata Haddr Hbank), flat_map_concat_map.
  split; [done|]. split; [by rewrite length_map, enumerate_length|].
  intros j w Hj. by apply groups_lookup.
Qed.

(** C7: when a write transaction's payload writes the configuration register
    (the byte [regval] at index [i] being the last such write of the
    payload), the bank-mode table afterwards is the old one with the entry of
    the transaction's chip address replaced by bit 7 -- the bank-select bit
    -- of [regval]: that entry is the new bit, every other entry is
    unchanged.  The new mode resolves the register names of the later
    transactions on that chip: after any transactions that do not write the
    chip's configuration register again, a transaction on the chip has all its
    fields resolved through the table of the new mode. *)
Theorem config_write_replaces_bank_mode
    self i2c_frame start_reg values chip iocon_bank (i : nat) regval :
  LLFrame.read i2c_frame = false ->
  LLFrame.data i2c_frame = start_reg :: values ->
  LLFrame.address i2c_frame = Some chip ->
  IOCON_BANK self !! chip = Some iocon_bank ->
  values !! i = Some regval ->
  reg_name_of iocon_bank (start_reg + Z.of_nat i) = "IOCON" ->
  (forall (j : nat) w, (i < j)%nat -> values !! j = Some w ->
     reg_name_of iocon_bank (start_reg + Z.of_nat j) <> "IOCON") ->
  let self' := (decode_frame self i2c_frame).1 in
  let bank' := Z.testbit regval 7 in
  iocon_bit_test regval "BANK" = Return bank' /\
  IOCON_BANK self' = <[chip := bank']> (IOCON_BANK self) /\
  IOCON_BANK self' !! chip = Some bank' /\
  (forall other, other <> chip ->
     IOCON_BANK self' !! other = IOCON_BANK self !! other) /\
  forall later next start_reg' values',
    Forall (leaves_mode chip bank') later ->
    LLFrame.data next = start_reg' :: values' ->
    LLFrame.address next = Some chip ->
    exists self'' groups,
      decode_fields (decode_frames self' later) next
        = (self'', Return (concat groups)) /\
      length groups = length values' /\
      forall (j : nat) w, values' !! j = Some w ->
        groups !! j =
        Some (if String.eqb (reg_name_of bank' (start_reg' + Z.of_nat j)) "IOCON"
                 && show_bits_setting self
              then bit_fields w
              else [reg_name_of bank' (start_reg' + Z.of_nat j)
                      +:+ "=" +:+ format_04x w]).
Proof.
  intros Hread Hdata Haddr Hbank Hi Hname Hlast self' bank'.
  assert (IOCON_BANK self' = <[chip := bank']> (IOCON_BANK self)) as Hstore.
  { unfold self'. rewrite decode_frame_state.
    rewrite (decode_fields_eq _ _ _ _ _ _ Hdata Haddr Hbank), Hread.
    cbn [fst IOCON_BANK set_IOCON_BANK]. by eapply fold_store_last_write. }
  split; [apply iocon_bit_test_BANK|]. split; [done|].
  split; [by rewrite Hstore, lookup_insert_eq|].
  split; [intros other Hother; by rewrite Hstore, lookup_insert_ne|].
  intros later next start_reg' values' Hlater Hdata' Haddr'.
  destruct (decode_frames_leaves_mode chip bank' later Hlater self')
    as [Hbank' Hshow]; [by rewrite Hstore, lookup_insert_eq|].
  destruct (decode_fields_groups _ _ _ _ _ _ Hdata' Haddr' Hbank')
    as (groups & Heq & Hlen & Hgroups).
  exists (decode_fields (decode_frames self' later) next).1, groups.
  split; [done|]. split; [done|].
  intros j w Hj. rewrite (Hgroups j w Hj), Hshow.
  unfold self'. by rewrite decode_frame_settings.
Qed.

Lemma config_write_replaces_bank_mode_witness :
  let self := init false false in
  let i2c_frame := LLFrame.mk (Some 0) 5 [0x0a; 0x80] false (Some 0x20) in
  let self' := (decode_frame self i2c_frame).1 in
  IOCON_BANK self !! 0x20 = Some false /\
  IOCON_BANK self' !! 0x20 = Some true /\
  IOCON_BANK self' !! 0x21 = Some false /\
  (decode_fields self' (LLFrame.mk (Some 6) 11 [0x09; 0x05] true (Some 0x20))).2
    = Return ["GPIOA=0x05"].
Proof.
  intros self i2c_frame self'.
  destruct (config_write_replaces_bank_mode
              self i2c_frame 0x0a [0x80] 0x20 false 0 0x80)
    as (_ & _ & Hchip & Hother & Hnext); try reflexivity.
  { intros [|[|j]] w Hj; solve [lia | discriminate]. }
  split; [reflexivity|]. split; [exact Hchip|].
  split; [rewrite Hother; [reflexivity|discriminate]|].
  destruct (Hnext [] (LLFrame.mk (Some 6) 11 [0x09; 0x05] true (Some 0x20))
              0x09 [0x05]) as (self'' & groups & Heq & _);
    [constructor|reflexivity|reflexivity|].
  reflexivity.
Defined.

(** C3, counterexample: chip 0x21 in bank mode 1, one write with payload
    [0x05, 0x00, 0xff].  Offset 0x05 is the configuration register and the
    byte 0x00 clears the bank-select bit, so the stored mode becomes 0; the
    following offset 0x06 is nevertheless resolved with the table of mode 1
    ([GPPUA]) and not with that of the recomputed mode 0 ([DEFVALA]). *)
Lemma mode_change_within_transaction_counterexample :
  let self := init true false in
  let i2c_frame := LLFrame.mk (Some 0) 5 [0x05; 0x00; 0xff] false (Some 0x21) in
  reg_name_of true 0x05 = "IOCON" /\
  IOCON_BANK (decode_fields self i2c_frame).1 !! 0x21 = Some false /\
  (decode_fields self i2c_frame).2 = Return ["IOCON=0x00"; "GPPUA=0xff"] /\
  reg_name_of false 0x06 = "DEFVALA" /\
  (decode_fields self i2c_frame).2
    <> Return ["IOCON=0x00"; reg_name_of false 0x06 +:+ "=" +:+ format_04x 0xff].
Proof. cbv zeta. repeat split; try reflexivity. vm_compute. discriminate. Qed.

(** C3 (as amended): the bank mode is read once, before the payload is
    walked.  In a write transaction whose payload writes the configuration
    register at some index, every field of the transaction -- those for the
    offsets after the write too -- is resolved with the mode stored for the
    chip when decoding began.  The recomputed mode is stored (when that write
    is the last one of the payload it is bit 7 of the written byte) and is
    the mode with which the next transaction on the chip is resolved. *)
Theorem bank_mode_fixed_within_transaction
    self i2c_frame start_reg values chip iocon_bank (i : nat) regval :
  LLFrame.read i2c_frame = false ->
  LLFrame.data i2c_frame = start_reg :: values ->
  LLFrame.address i2c_frame = Some chip ->
  IOCON_BANK self !! chip = Some iocon_bank ->
  values !! i = Some regval ->
  reg_name_of iocon_bank (start_reg + Z.of_nat i) = "IOCON" ->
  exists self' groups bank',
    decode_fields self i2c_frame = (self', Return (concat groups)) /\
    (forall (j : nat) w, values !! j = Some w ->
       groups !! j =
       Some (if String.eqb (reg_name_of iocon_bank (start_reg + Z.of_nat j)) "IOCON"
                && show_bits_setting self
             then bit_fields w
             else [reg_name_of iocon_bank (start_reg + Z.of_nat j)
                     +:+ "=" +:+ format_04x w])) /\
    IOCON_BANK self' !! chip = Some bank' /\
    ((forall (j : nat) w, (i < j)%nat -> values !! j = Some w ->
        reg_name_of iocon_bank (start_reg + Z.of_nat j) <> "IOCON") ->
     bank' = Z.testbit regval 7) /\
    forall next start_reg' values',
      LLFrame.data next = start_reg' :: values' ->
      LLFrame.address next = Some chip ->
      exists self'' groups',
        decode_fields self' next = (self'', Return (concat groups')) /\
        forall (j : nat) w, values' !! j = Some w ->
          groups' !! j =
          Some (if String.eqb (reg_name_of bank' (start_reg' + Z.of_nat j)) "IOCON"
                   && show_bits_setting self
                then bit_fields w
                else [reg_name_of bank' (start_reg' + Z.of_nat j)
                        +:+ "=" +:+ format_04x w]).
Proof.
  intros Hread Hdata Haddr Hbank Hi Hname.
  destruct (decode_fields_groups _ _ _ _ _ _ Hdata Haddr Hbank)
    as (groups & Heq & _ & Hgroups).
  pose proof (decode_fields_eq _ _ _ _ _ _ Hdata Haddr Hbank) as Hfull.
  set (self' := (decode_fields self i2c_frame).1) in *.
  assert (IOCON_BANK self' =
          fold_left (item_store false iocon_bank chip)
            (enumerate values start_reg) (IOCON_BANK self)) as Hstore.
  { unfold self'. by rewrite Hfull, Hread. }
  destruct (fold_store_is_Some false iocon_bank chip
              (enumerate values start_reg) (IOCON_BANK self) chip)
    as [bank' Hbank']; [by eexists|].
  rewrite <- Hstore in Hbank'.
  exists self', groups, bank'.
  split; [done|]. split; [done|]. split; [done|]. split.
  - intros Hlast. rewrite Hstore in Hbank'.
    rewrite (fold_store_last_write _ _ _ _ _ _ _ Hi Hname Hlast) in Hbank'.
    rewrite lookup_insert_eq in Hbank'. congruence.
  - intros next start_reg' values' Hdata' Haddr'.
    destruct (decode_fields_groups _ _ _ _ _ _ Hdata' Haddr' Hbank')
      as (groups' & Heq' & _ & Hgroups').
    exists (decode_fields self' next).1, groups'. split; [done|].
    intros j w Hj. rewrite (Hgroups' j w Hj).
    unfold self'. by rewrite <- decode_frame_state, decode_frame_settings.
Qed.

Lemma bank_mode_fixed_within_transaction_witness :
  let self := init true false in
  let i2c_frame := LLFrame.mk (Some 0) 5 [0x05; 0x00; 0xff] false (Some 0x21) in
  reg_name_of true (0x05 + Z.of_nat 0) = "IOCON" /\
  exists self' groups bank',
    decode_fields self i2c_frame = (self', Return (concat groups)) /\
    groups !! 1%nat = Some ["GPPUA=0xff"] /\
    IOCON_BANK self' !! 0x21 = Some bank'.
Proof.
  intros self i2c_frame. split; [reflexivity|].
  destruct (bank_mode_fixed_within_transaction
              self i2c_frame 0x05 [0x00; 0xff] 0x21 true 0 0x00)
    as (self' & groups & bank' & Heq & Hgroups & Hbank' & _); try reflexivity.
  exists self', groups, bank'. split; [exact Heq|]. split; [|exact Hbank'].
  rewrite (Hgroups 1%nat 0xff); reflexivity.
Defined.

(** ** Field counts and verbose expansion *)

Lemma decode_fields_one_group_per_value_witness :
  let self := init false false in
  let i2c_frame := LLFrame.mk (Some 0) 9 [0x12; 0x3a; 0x05] false (Some 0x20) in
  show_bits_setting self = false /\
  exists self' groups,
    decode_fields self i2c_frame = (self', Return (concat groups)) /\
    length (concat groups) = 2%nat /\
    concat groups !! 0%nat = Some "GPIOA=0x3a" /\
    concat groups !! 1%nat = Some "GPIOB=0x05".
Proof.
  intros self i2c_frame. split; [reflexivity|].
  destruct (decode_fields_one_group_per_value
              self i2c_frame 0x12 [0x3a; 0x05] 0x20 false)
    as (self' & groups & Heq & _ & _ & _ & Hplain); try reflexivity.
  destruct (Hplain eq_refl) as [Hlen Hnth].
  exists self', groups. split; [exact Heq|]. split; [exact Hlen|].
  split; [exact (Hnth 0%nat 0x3a eq_refl)|exact (Hnth 1%nat 0x05 eq_refl)].
Defined.

(** C4, counterexample: with verbose bit expansion on, the payload
    [0x0a, 0x84] -- one value byte -- gives seven fields. *)
Lemma one_field_per_value_counterexample :
  let self := init false true in
  let frames :=
    [FStart 0 1; FAddress 1 2 0x20 false true; FData 2 3 [0x0a] true;
     FData 3 4 [0x84] true; FStop 4 5] in
  let i2c_frame := LLFrame.mk (Some 0) 5 [0x0a; 0x84] false (Some 0x20) in
  (ll_run self frames).2 = [None; None; None; None; Some i2c_frame] /\
  (decode_fields self i2c_frame).2 =
    Return ["INTPOL=False"; "ODR=True"; "HAEN=False"; "DISSLW=False";
            "SEQOP=False"; "MIRROW=False"; "BANK=True"] /\
  ~ (exists fields,
       (decode_fields self i2c_frame).2 = Return fields /\ length fields = 1%nat).
Proof.
  cbv zeta. split; [reflexivity|]. split; [reflexivity|].
  intros (fields & Heq & Hlen). vm_compute in Heq. injection Heq as <-.
  discriminate Hlen.
Qed.

(** C5, counterexample: 0x84 is bits 7 and 2, and bit 2 is [ODR]; [HAEN] is
    bit 3.  The field list has ["ODR=True"] and ["HAEN=False"], not
    ["HAEN=True"]. *)
Lemma verbose_0x84_HAEN_counterexample :
  let self := init false true in
  let i2c_frame := LLFrame.mk (Some 0) 5 [0x0a; 0x84] false (Some 0x20) in
  dict_get IOCON_BITS "HAEN" = Return 3 /\ Z.testbit 0x84 3 = false /\
  exists fields,
    (decode_fields self i2c_frame).2 = Return fields /\
    In "HAEN=False" fields /\ In "ODR=True" fields /\ ~ In "HAEN=True" fields.
Proof.
  cbv zeta. split; [reflexivity|]. split; [reflexivity|].
  exists ["INTPOL=False"; "ODR=True"; "HAEN=False"; "DISSLW=False";
          "SEQOP=False"; "MIRROW=False"; "BANK=True"].
  split; [reflexivity|]. cbn [In].
  split; [tauto|]. split; [tauto|].
  intros H; repeat destruct H as [H|H]; discriminate H || exact H.
Qed.

(** C5 (as amended): with verbose bit expansion on, a write transaction whose
    payload writes one byte to the configuration register gives exactly seven
    fields, one per named control bit in the order INTPOL (bit 1), ODR (2),
    HAEN (3), DISSLW (4), SEQOP (5), MIRROW (6), BANK (7) -- nothing for bit 0
    -- each [NAME=True] or [NAME=False] by that bit of the byte.  For the
    byte 0x84 these are [ODR=True] and [BANK=True], all the others [False],
    and the chip's bank mode becomes 1. *)
Theorem verbose_config_write_fields
    self i2c_frame start_reg regval chip iocon_bank :
  show_bits_setting self = true ->
  LLFrame.read i2c_frame = false ->
  LLFrame.data i2c_frame = [start_reg; regval] ->
  LLFrame.address i2c_frame = Some chip ->
  IOCON_BANK self !! chip = Some iocon_bank ->
  reg_name_of iocon_bank start_reg = "IOCON" ->
  decode_fields self i2c_frame =
    (set_IOCON_BANK self (<[chip := Z.testbit regval 7]> (IOCON_BANK self)),
     Return
       [ "INTPOL=" +:+ str_bool (Z.testbit regval 1);
         "ODR=" +:+ str_bool (Z.testbit regval 2);
         "HAEN=" +:+ str_bool (Z.testbit regval 3);
         "DISSLW=" +:+ str_bool (Z.testbit regval 4);
         "SEQOP=" +:+ str_bool (Z.testbit regval 5);
         "MIRROW=" +:+ str_bool (Z.testbit regval 6);
         "BANK=" +:+ str_bool (Z.testbit regval 7) ]) /\
  (regval = 0x84 ->
   decode_fields self i2c_frame =
     (set_IOCON_BANK self (<[chip := true]> (IOCON_BANK self)),
      Return ["INTPOL=False"; "ODR=True"; "HAEN=False"; "DISSLW=False";
              "SEQOP=False"; "MIRROW=False"; "BANK=True"])).
Proof.
  intros Hshow Hread Hdata Haddr Hbank Hname.
  rewrite (decode_fields_eq _ _ _ _ _ _ Hdata Haddr Hbank).
  cbn [enumerate fold_left flat_map]. unfold item_store, item_fields.
  cbn [fst snd]. rewrite Hname, Hshow, Hread. cbn [String.eqb Ascii.eqb andb negb].
  split; [|intros ->]; reflexivity.
Qed.

Lemma verbose_config_write_fields_witness :
  let self := init false true in
  let i2c_frame := LLFrame.mk (Some 0) 5 [0x0a; 0x84] false (Some 0x20) in
  reg_name_of false 0x0a = "IOCON" /\
  decode_fields self i2c_frame =
    (set_IOCON_BANK self (<[0x20 := true]> (IOCON_BANK self)),
     Return ["INTPOL=False"; "ODR=True"; "HAEN=False"; "DISSLW=False";
             "SEQOP=False"; "MIRROW=False"; "BANK=True"]).
Proof.
  intros self i2c_frame. split; [reflexivity|].
  apply (verbose_config_write_fields self i2c_frame 0x0a 0x84 0x20 false);
    reflexivity.
Defined.

(** ** Offsets past 0xff *)

Lemma hex_value_hex (n : Z) : 0 <= n -> hex_value (hex n) = Some n.
Proof.
  intros Hn. unfold hex_value, hex.
  rewrite NilZero.usu.
  - cbn. by rewrite HexadecimalN.Unsigned.of_to, Z2N.id.
  - destruct (Z.to_N n); [done|]. apply HexadecimalPos.Unsigned.to_uint_nonnil.
Qed.

Lemma hex_value_pad (digits : string) (n : Z) :
  hex_value digits = Some n -> hex_value ("0" +:+ digits) = Some n.
Proof.
  unfold hex_value. destruct digits as [|c digits]; [done|].
  change ("0" +:+ String c digits) with (String "0" (String c digits)).
  unfold NilZero.uint_of_string.
  change (NilEmpty.uint_of_string (String "0" (String c digits)))
    with (uint_of_char "0" (NilEmpty.uint_of_string (String c digits))).
  destruct (NilEmpty.uint_of_string (String c digits)) as [d|]; [|done].
  intros [= <-]. reflexivity.
Qed.

Lemma format_04x_value (n : Z) :
  0 <= n ->
  exists digits, format_04x n = "0x" +:+ digits /\ hex_value digits = Some n.
Proof.
  intros Hn. unfold format_04x.
  replace (n <? 0) with false by (symmetry; by apply Z.ltb_ge).
  destruct (_ <? _)%nat; eexists; (split; [reflexivity|]).
  - by apply hex_value_pad, hex_value_hex.
  - by apply hex_value_hex.
Qed.

Lemma MAP_above (iocon_bank : bool) (regaddr : Z) :
  0x1a < regaddr -> MAP iocon_bank !! regaddr = None.
Proof.
  intros Hn. destruct iocon_bank; unfold MAP;
    apply not_elem_of_list_to_map_1; cbn [fmap list_fmap fst];
    rewrite !not_elem_of_cons; repeat split; try lia; apply not_elem_of_nil.
Qed.

Lemma unknown_name_not_IOCON (regaddr : Z) :
  String.eqb (format_04x regaddr +:+ "?") "IOCON" = false.
Proof. unfold format_04x. by destruct (regaddr <? 0). Qed.

(** C10: the offsets of a payload are [start + index] as integers, with no
    reduction modulo 256.  An offset above 0xff is in neither register table,
    so its name is the formatted raw offset followed by [?]; the formatted
    offset is [0x] and hexadecimal digits whose value is the unreduced offset
    (0x100 is rendered ["0x100"]), and the field for that value byte is that
    name, [=] and the value. *)
Theorem offsets_past_0xff_not_wrapped
    self i2c_frame start_reg values chip iocon_bank (i : nat) regval :
  LLFrame.data i2c_frame = start_reg :: values ->
  LLFrame.address i2c_frame = Some chip ->
  IOCON_BANK self !! chip = Some iocon_bank ->
  values !! i = Some regval ->
  0xff < start_reg + Z.of_nat i ->
  let regaddr := start_reg + Z.of_nat i in
  MAP false !! regaddr = None /\ MAP true !! regaddr = None /\
  reg_name_of iocon_bank regaddr = format_04x regaddr +:+ "?" /\
  (exists digits,
     format_04x regaddr = "0x" +:+ digits /\ hex_value digits = Some regaddr) /\
  format_04x 0x100 = "0x100" /\
  exists self' groups,
    decode_fields self i2c_frame = (self', Return (concat groups)) /\
    length groups = length values /\
    groups !! i =
      Some [(format_04x regaddr +:+ "?") +:+ "=" +:+ format_04x regval].
Proof.
  intros Hdata Haddr Hbank Hi Hbig regaddr.
  assert (reg_name_of iocon_bank regaddr = format_04x regaddr +:+ "?") as Hname.
  { unfold reg_name_of. by rewrite MAP_above by (unfold regaddr; lia). }
  split; [apply MAP_above; unfold regaddr; lia|].
  split; [apply MAP_above; unfold regaddr; lia|].
  split; [done|].
  split; [apply format_04x_value; unfold regaddr; lia|].
  split; [reflexivity|].
  destruct (decode_fields_groups _ _ _ _ _ _ Hdata Haddr Hbank)
    as (groups & Heq & Hlen & Hgroups).
  exists (decode_fields self i2c_frame).1, groups.
  split; [done|]. split; [done|].
  rewrite (Hgroups i regval Hi). fold regaddr.
  by rewrite Hname, unknown_name_not_IOCON.
Qed.

Lemma offsets_past_0xff_not_wrapped_witness :
  let self := init false false in
  let i2c_frame := LLFrame.mk (Some 0) 9 [0xff; 0x01; 0x02] false (Some 0x20) in
  0xff < 0xff + Z.of_nat 1 /\
  reg_name_of false 0x100 = "0x100?" /\
  (decode_fields self i2c_frame).2 = Return ["0xff?=0x01"; "0x100?=0x02"].
Proof.
  intros self i2c_frame. split; [reflexivity|].
  destruct (offsets_past_0xff_not_wrapped
              self i2c_frame 0xff [0x01; 0x02] 0x20 false 1 0x02)
    as (_ & _ & Hname & _); try reflexivity.
  split; [exact Hname|reflexivity].
Defined.

(** ** Determinism *)

Lemma same_session_setting self1 self2 :
  same_session self1 self2 <->
  self2 = set_iocon_bank_setting self1 (iocon_bank_setting self2).
Proof.
  split.
  - intros (? & ? & ? & ? & ? & ? & ?). destruct self1, self2. cbn in *.
    unfold set_iocon_bank_setting. cbn. congruence.
  - intros ->. by destruct self1.
Qed.

Lemma ll_fsm_setting self s frame :
  ll_fsm (set_iocon_bank_setting self s) frame =
  (set_iocon_bank_setting (ll_fsm self frame).1 s, (ll_fsm self frame).2).
Proof.
  unfold ll_fsm. cbn [state set_iocon_bank_setting].
  destruct (state self), frame as [| ? ? ? ? []| | |]; try done.
  by case_match.
Qed.

Lemma decode_frame_setting self s i2c_frame :
  decode_frame (set_iocon_bank_setting self s) i2c_frame =
  (set_iocon_bank_setting (decode_frame self i2c_frame).1 s,
   (decode_frame self i2c_frame).2).
Proof.
  rewrite !decode_frame_eq. cbn [fst snd].
  assert (decode_fields (set_iocon_bank_setting self s) i2c_frame =
          (set_iocon_bank_setting (decode_fields self i2c_frame).1 s,
           (decode_fields self i2c_frame).2)) as ->; [|done].
  unfold decode_fields. cbn [IOCON_BANK set_iocon_bank_setting].
  destruct (LLFrame.data i2c_frame) as [|start_reg values]; [done|].
  destruct (LLFrame.address i2c_frame) as [chip|]; [|done].
  destruct (IOCON_BANK self !! chip) as [iocon_bank|]; [|done].
  by rewrite !decode_loop_eq.
Qed.

Lemma decode_setting self s frame :
  decode (set_iocon_bank_setting self s) frame =
  (set_iocon_bank_setting (decode self frame).1 s, (decode self frame).2).
Proof.
  unfold decode. rewrite ll_fsm_setting.
  destruct (ll_fsm self frame) as [self1 [i2c_frame|]]; [|done].
  cbn [fst snd]. rewrite decode_frame_setting.
  by destruct (decode_frame self1 i2c_frame) as [? [?|?]].
Qed.

Lemma decode_all_setting (frames : list Frame) : forall self s,
  decode_all (set_iocon_bank_setting self s) frames =
  (set_iocon_bank_setting (decode_all self frames).1.1 s,
   (decode_all self frames).1.2, (decode_all self frames).2).
Proof.
  induction frames as [|frame frames IH]; intros self s; [done|].
  cbn [decode_all]. rewrite decode_setting.
  destruct (decode self frame) as [self1 [out|e]]; [|done].
  cbn [fst snd]. rewrite IH.
  by destruct (decode_all self1 frames) as [[? ?] ?].
Qed.

(** C9: decoding is a function of the verbose setting, the bank-mode table,
    the reassembler state and the event sequence.  Two analyzers that agree
    on these give, for the same events, the same decoded records and the
    same exception if any, and they agree on them again afterwards; so do, in
    particular, two analyzers constructed with the same settings. *)
Theorem decode_all_deterministic :
  (forall self1 self2 (frames : list Frame),
     same_session self1 self2 ->
     (decode_all self1 frames).1.2 = (decode_all self2 frames).1.2 /\
     (decode_all self1 frames).2 = (decode_all self2 frames).2 /\
     same_session (decode_all self1 frames).1.1 (decode_all self2 frames).1.1) /\
  (forall iocon_bank1 show_bits1 iocon_bank2 show_bits2 (frames : list Frame),
     iocon_bank1 = iocon_bank2 -> show_bits1 = show_bits2 ->
     decode_all (init iocon_bank1 show_bits1) frames =
     decode_all (init iocon_bank2 show_bits2) frames).
Proof.
  split.
  - intros self1 self2 frames Hsame.
    apply same_session_setting in Hsame. rewrite Hsame, decode_all_setting.
    cbn [fst snd]. split; [done|]. split; [done|].
    by apply same_session_setting.
  - by intros ? ? ? ? frames -> ->.
Qed.

Lemma decode_all_deterministic_witness :
  let frames :=
    [FStart 0 1; FAddress 1 2 0x20 false true; FData 2 3 [0x0a] true;
     FData 3 4 [0x80] true; FStop 4 5] in
  let self1 := init false false in
  let self2 := set_iocon_bank_setting self1 true in
  same_session self1 self2 /\
  (decode_all self1 frames).1.2 = (decode_all self2 frames).1.2.
Proof.
  intros frames self1 self2.
  assert (same_session self1 self2) as Hsame by (repeat split).
  split; [exact Hsame|].
  exact (proj1 (proj1 decode_all_deterministic self1 self2 frames Hsame)).
Defined.

(** * Further properties of the code *)

(** ** The bit table and the bit test *)

Lemma dict_get_elem {V} (d : list (string * V)) (key : string) :
  (forall v, dict_get d key = Return v -> (key, v) ∈ d) /\
  (key ∉ dict_keys d -> dict_get d key = Raise KeyError) /\
  (key ∈ dict_keys d -> exists v, dict_get d key = Return v).
Proof.
  induction d as [|[k v] d (IHret & IHno & IHyes)]; cbn [dict_get dict_keys map fst].
  - split; [intros v Hv; discriminate Hv|]. split; [done|].
    intros Hin. by apply elem_of_nil in Hin.
  - destruct (String.eqb_spec k key) as [->|Hne].
    + split; [intros v' [= <-]; by left|]. split; [|by eexists].
      intros Hno. exfalso. apply Hno. by left.
    + split; [intros v' Hv'; right; by apply IHret|].
      split; [intros Hno; apply IHno; intros Hin; apply Hno; by right|].
      intros [Heq|Hin]%elem_of_cons; [congruence|by apply IHyes].
Qed.

(** X1: [iocon_bit_test(reg, name)] is bit [IOCON_BITS[name]] of [reg] for
    each of the seven names of [IOCON_BITS] -- the bit position is between 1
    and 7, and the mask test agrees with the bit of the integer also for
    negative [reg] -- and it raises [KeyError] for every other name. *)
Theorem iocon_bit_test_by_name (reg : Z) (name : string) :
  (name ∈ dict_keys IOCON_BITS ->
   exists bit, (name, bit) ∈ IOCON_BITS /\ 1 <= bit <= 7 /\
     iocon_bit_test reg name = Return (Z.testbit reg bit)) /\
  (name ∉ dict_keys IOCON_BITS -> iocon_bit_test reg name = Raise KeyError).
Proof.
  destruct (dict_get_elem IOCON_BITS name) as (Hret & Hno & Hyes). split.
  - intros Hin. destruct (Hyes Hin) as [bit Hbit]. exists bit.
    pose proof (Hret bit Hbit) as Helem. split; [done|].
    assert (1 <= bit <= 7) as Hrange.
    { unfold IOCON_BITS in Helem. rewrite !elem_of_cons in Helem.
      destruct Helem as [H|[H|[H|[H|[H|[H|[H|H]]]]]]];
        try (injection H as _ ->; lia). by apply elem_of_nil in H. }
    split; [done|]. apply iocon_bit_test_key; [done|lia].
  - intros Hnotin. unfold iocon_bit_test. by rewrite (Hno Hnotin).
Qed.

Lemma iocon_bit_test_by_name_witness :
  "SEQOP" ∈ dict_keys IOCON_BITS /\
  exists bit, ("SEQOP", bit) ∈ IOCON_BITS /\ 1 <= bit <= 7 /\
    iocon_bit_test (-1) "SEQOP" = Return (Z.testbit (-1) bit).
Proof.
  assert ("SEQOP" ∈ dict_keys IOCON_BITS) as Hin.
  { unfold dict_keys, IOCON_BITS. cbn [map fst]. rewrite !elem_of_cons. tauto. }
  split; [exact Hin|].
  exact (proj1 (iocon_bit_test_by_name (-1) "SEQOP") Hin).
Defined.

(** ** The register tables *)

Lemma MAP_below (iocon_bank : bool) (regaddr : Z) :
  regaddr < 0 -> MAP iocon_bank !! regaddr = None.
Proof.
  intros Hn. destruct iocon_bank; unfold MAP;
    apply not_elem_of_list_to_map_1; cbn [fmap list_fmap fst];
    rewrite !not_elem_of_cons; repeat split; try lia; apply not_elem_of_nil.
Qed.

Lemma seqZ_cases (f : Z -> bool) (m len : Z) :
  forallb f (seqZ m len) = true -> forall k, m <= k < m + len -> f k = true.
Proof.
  intros Hall k Hk. rewrite forallb_forall in Hall. apply Hall.
  apply list_elem_of_In, elem_of_seqZ. lia.
Qed.

(** The offsets at which each table names the configuration register. *)
Lemma IOCON_offsets_table :
  forallb (fun k =>
             Bool.eqb (String.eqb (reg_name_of false k) "IOCON")
                      ((k =? 0x0a) || (k =? 0x0b)) &&
             Bool.eqb (String.eqb (reg_name_of true k) "IOCON")
                      ((k =? 0x05) || (k =? 0x15)))
          (seqZ 0 0x1b) = true.
Proof. vm_compute. reflexivity. Qed.

(** X2: the offsets that resolve to the configuration register, over all
    integers: 0x0a and 0x0b in bank mode 0, 0x05 and 0x15 in bank mode 1, and
    no other offset in either mode. *)
Theorem IOCON_offsets (iocon_bank : bool) (regaddr : Z) :
  reg_name_of iocon_bank regaddr = "IOCON" <->
  if iocon_bank then regaddr = 0x05 \/ regaddr = 0x15
  else regaddr = 0x0a \/ regaddr = 0x0b.
Proof.
  rewrite <- String.eqb_eq.
  destruct (decide (0 <= regaddr < 0 + 0x1b)) as [Hin|Hout].
  - pose proof (seqZ_cases _ _ _ IOCON_offsets_table regaddr Hin) as Htable.
    cbv beta in Htable. apply andb_true_iff in Htable as [H0 H1].
    apply Bool.eqb_prop in H0, H1.
    destruct iocon_bank; [rewrite H1|rewrite H0];
      rewrite orb_true_iff, !Z.eqb_eq; done.
  - assert (MAP iocon_bank !! regaddr = None) as Hnone.
    { destruct (decide (regaddr < 0)); [by apply MAP_below|apply MAP_above; lia]. }
    unfold reg_name_of. rewrite Hnone. cbn [default].
    rewrite unknown_name_not_IOCON.
    destruct iocon_bank; (split; [done|intros H; exfalso; lia]).
Qed.

Lemma bank_tables_related_table :
  forallb (fun k =>
             match MAP false !! k, MAP true !! bank1_offset k with
             | Some name0, Some name1 => String.eqb name0 name1
             | _, _ => false
             end)
          (seqZ 0 0x16) = true.
Proof. vm_compute. reflexivity. Qed.

Lemma bank_tables_related (k : Z) :
  0 <= k <= 0x15 ->
  is_Some (MAP false !! k) /\ MAP true !! bank1_offset k = MAP false !! k.
Proof.
  intros Hk.
  pose proof (seqZ_cases _ _ _ bank_tables_related_table k) as Htable.
  cbv beta in Htable.
  destruct (MAP false !! k) as [name0|], (MAP true !! bank1_offset k) as [name1|];
    try (by discriminate Htable; lia).
  split; [by eexists|]. f_equal. symmetry. apply String.eqb_eq, Htable. lia.
Qed.

Lemma bank1_table_gap :
  forallb (fun k => match MAP true !! k with Some _ => false | None => true end)
          (seqZ 0x0b 5) = true /\
  forallb (fun k => match MAP false !! k with Some _ => false | None => true end)
          (seqZ 0x16 5) = true.
Proof. split; vm_compute; reflexivity. Qed.

Lemma bank1_table_covered (k' : Z) :
  0 <= k' <= 0x1a -> is_Some (MAP true !! k') ->
  exists k, 0 <= k <= 0x15 /\ k' = bank1_offset k.
Proof.
  intros Hk' Hsome.
  destruct (decide (k' < 0x10)) as [Hlow|Hhigh].
  - destruct (decide (k' <= 0x0a)) as [Hle|Hgt].
    + exists (2 * k'). unfold bank1_offset.
      rewrite (Z.mul_comm 2 k'), Z.div_mul, Z.mod_mul by lia. lia.
    + exfalso.
      pose proof (seqZ_cases _ _ _ (proj1 bank1_table_gap) k') as Hgap.
      cbv beta in Hgap. destruct Hsome as [name Hname].
      rewrite Hname in Hgap. discriminate Hgap. lia.
  - exists (1 + (k' - 0x10) * 2). unfold bank1_offset.
    rewrite Z.div_add, Z.mod_add by lia.
    change (1 / 2) with 0. change (1 mod 2) with 1. lia.
Qed.

(** X3: the two register tables describe the same 22 registers.  Bank mode 0
    names exactly the offsets 0x00..0x15; the register it has at offset [k]
    is the one bank mode 1 has at [k / 2 + 0x10 * (k mod 2)] (port A from
    0x00, port B from 0x10), and bank mode 1 names no other offset. *)
Theorem bank_tables_agree (k : Z) :
  (is_Some (MAP false !! k) <-> 0 <= k <= 0x15) /\
  (0 <= k <= 0x15 -> MAP true !! bank1_offset k = MAP false !! k) /\
  (is_Some (MAP true !! k) <-> exists k0, 0 <= k0 <= 0x15 /\ k = bank1_offset k0).
Proof.
  split; [|split].
  - split; [|by apply bank_tables_related].
    intros Hsome.
    destruct (decide (k < 0)) as [Hneg|Hpos];
      [rewrite MAP_below in Hsome by done; by destruct Hsome|].
    destruct (decide (0x1a < k)) as [Hbig|Hsmall];
      [rewrite MAP_above in Hsome by done; by destruct Hsome|].
    destruct (decide (k <= 0x15)) as [Hle|Hgt]; [lia|]. exfalso.
    pose proof (seqZ_cases _ _ _ (proj2 bank1_table_gap) k) as Hgap.
    cbv beta in Hgap. destruct Hsome as [name Hname].
    rewrite Hname in Hgap. discriminate Hgap. lia.
  - by apply bank_tables_related.
  - split.
    + intros Hsome.
      destruct (decide (k < 0)) as [Hneg|Hpos];
        [rewrite MAP_below in Hsome by done; by destruct Hsome|].
      destruct (decide (0x1a < k)) as [Hbig|Hsmall];
        [rewrite MAP_above in Hsome by done; by destruct Hsome|].
      apply bank1_table_covered; [lia|done].
    + intros (k0 & Hk0 & ->).
      destruct (bank_tables_related k0 Hk0) as [Hsome Heq]. by rewrite Heq.
Qed.

Lemma bank_tables_agree_witness :
  0 <= 0x13 <= 0x15 /\ bank1_offset 0x13 = 0x19 /\
  MAP true !! bank1_offset 0x13 = MAP false !! 0x13.
Proof.
  split; [lia|]. split; [reflexivity|].
  apply (proj1 (proj2 (bank_tables_agree 0x13))). lia.
Defined.

(** ** Rendering of numbers *)

Lemma format_04x_byte_width :
  forallb (fun k => (String.length (format_04x k) =? 4)%nat) (seqZ 0 0x100) = true.
Proof. vm_compute. reflexivity. Qed.

Lemma append_cancel_l (prefix s1 s2 : string) :
  prefix +:+ s1 = prefix +:+ s2 -> s1 = s2.
Proof.
  induction prefix as [|c prefix IH]; [done|].
  intros Heq. injection Heq as Heq. by apply IH.
Qed.

Lemma format_04x_negative (n : Z) :
  n < 0 -> format_04x n = "-0x" +:+ hex (- n).
Proof. intros Hn. unfold format_04x. by rewrite (proj2 (Z.ltb_lt n 0) Hn). Qed.

(** X4: [f"{n:#04x}"] loses nothing: two different integers never render
    the same, so a rendered offset or value identifies the number.  A byte
    (0..255) renders with exactly four characters, [0x] and two digits. *)
Theorem format_04x_faithful :
  (forall n m, format_04x n = format_04x m -> n = m) /\
  (forall n, 0 <= n <= 0xff -> String.length (format_04x n) = 4%nat).
Proof.
  split.
  - intros n m Heq.
    destruct (decide (n < 0)) as [Hn|Hn], (decide (m < 0)) as [Hm|Hm].
    + rewrite !format_04x_negative in Heq by done.
      apply append_cancel_l in Heq.
      assert (hex_value (hex (- n)) = hex_value (hex (- m))) as Hv by by rewrite Heq.
      rewrite !hex_value_hex in Hv by lia. injection Hv as Hv. lia.
    + rewrite format_04x_negative in Heq by done.
      destruct (format_04x_value m) as (digits & Hm' & _); [lia|].
      rewrite Hm' in Heq. discriminate Heq.
    + rewrite (format_04x_negative m) in Heq by done.
      destruct (format_04x_value n) as (digits & Hn' & _); [lia|].
      rewrite Hn' in Heq. discriminate Heq.
    + destruct (format_04x_value n) as (dn & Hn' & Hvn); [lia|].
      destruct (format_04x_value m) as (dm & Hm' & Hvm); [lia|].
      rewrite Hn', Hm' in Heq. apply append_cancel_l in Heq. congruence.
  - intros n Hn.
    pose proof (seqZ_cases _ _ _ format_04x_byte_width n) as Hw. cbv beta in Hw.
    apply Nat.eqb_eq, Hw. lia.
Qed.

Lemma format_04x_faithful_witness :
  format_04x 0x3a = format_04x (0x30 + 0x0a) /\ 0 <= 0x05 <= 0xff /\
  String.length (format_04x 0x05) = 4%nat.
Proof.
  split; [reflexivity|]. split; [lia|].
  apply (proj2 format_04x_faithful 0x05). lia.
Defined.

(** ** The reassembler: well-formed and malformed sequences *)

Lemma ll_fsm_reset_start self st et :
  ll_fsm (reset self) (FStart st et) =
  (set_start_time (set_state (reset self) START) (Some st), None).
Proof. reflexivity. Qed.

(** X5: a plain transaction is reassembled exactly.  From the reset state, a
    Start, an acknowledged Address inside the window, any number of Data
    frames and a Stop give nothing until the Stop and then one transaction:
    the start time of the Start, the end time of the Stop, the bytes of the
    Data frames concatenated in arrival order, the direction flag and the
    address of the Address frame; the reassembler is back in the reset
    state. *)
Theorem plain_transaction_reassembled self st et st1 et1 a r datas st2 et2 :
  in_window a -> Forall is_data_frame datas ->
  ll_run (reset self)
    (FStart st et :: FAddress st1 et1 a r true :: datas ++ [FStop st2 et2]) =
  (reset self,
   None :: None :: replicate (length datas) None ++
     [Some (LLFrame.mk (Some st) et2 (payload_of datas) r (Some a))]).
Proof.
  intros Ha Hdatas. cbn [ll_run]. rewrite ll_fsm_reset_start.
  rewrite ll_fsm_START_address by done.
  rewrite ll_run_app, (ll_run_data datas) by done. cbn [fst snd ll_run].
  rewrite ll_fsm_DATA_stop by done. by destruct self.
Qed.

Lemma plain_transaction_reassembled_witness :
  in_window 0x27 /\
  (ll_run (reset (init true false))
     [FStart 0 1; FAddress 1 2 0x27 true true; FData 2 3 [0x12] true;
      FData 3 4 [0x34; 0x56] true; FStop 4 5]).2 =
  [None; None; None; None;
   Some (LLFrame.mk (Some 0) 5 [0x12; 0x34; 0x56] true (Some 0x27))].
Proof.
  assert (in_window 0x27) as Hwin
    by (unfold in_window, START_ADDRESS, N_ADDRESSES; lia).
  split; [exact Hwin|].
  change [FStart 0 1; FAddress 1 2 0x27 true true; FData 2 3 [0x12] true;
          FData 3 4 [0x34; 0x56] true; FStop 4 5]
    with (FStart 0 1 :: FAddress 1 2 0x27 true true ::
          [FData 2 3 [0x12] true; FData 3 4 [0x34; 0x56] true] ++ [FStop 4 5]).
  rewrite (plain_transaction_reassembled (init true false) 0 1 1 2 0x27 true
             [FData 2 3 [0x12] true; FData 3 4 [0x34; 0x56] true] 4 5 Hwin).
  - reflexivity.
  - by repeat constructor.
Defined.

(** X6: nothing but a Stop completes a transaction.  For every frame that is
    not a Stop, in every state, [decode] returns [None], raises nothing and
    leaves the bank-mode table as it was. *)
Theorem only_stop_decodes self frame :
  (forall st et, frame <> FStop st et) ->
  (ll_fsm self frame).2 = None /\
  (decode self frame).2 = Return None /\
  IOCON_BANK (decode self frame).1 = IOCON_BANK self.
Proof.
  intros Hframe.
  assert ((ll_fsm self frame).2 = None) as Hnone.
  { destruct (ll_fsm self frame) as [self1 [t|]] eqn:Hfsm; [|done].
    apply ll_fsm_emits in Hfsm as (_ & (st & et & ->) & _). by destruct (Hframe st et). }
  split; [done|].
  destruct (ll_fsm self frame) as [self1 out] eqn:Hfsm. cbn [snd] in Hnone. subst out.
  rewrite (decode_no_frame _ _ _ Hfsm). split; [done|]. cbn [fst].
  pose proof (proj1 (ll_fsm_IOCON_BANK self frame)) as Hbank.
  by rewrite Hfsm in Hbank.
Qed.

Lemma only_stop_decodes_witness :
  let self := (ll_run (init false false)
                 [FStart 0 1; FAddress 1 2 0x20 false true; FData 2 3 [0x0a] true]).1 in
  state self = DATA /\
  (decode self (FData 3 4 [0x80] true)).2 = Return None /\
  IOCON_BANK (decode self (FData 3 4 [0x80] true)).1 = IOCON_BANK self.
Proof.
  intros self. split; [reflexivity|].
  apply (only_stop_decodes self (FData 3 4 [0x80] true)).
  intros st et. discriminate.
Defined.

Lemma decode_all_app (frames1 frames2 : list Frame) : forall self,
  decode_all self (frames1 ++ frames2) =
  match decode_all self frames1 with
  | (self1, outs1, Some e) => (self1, outs1, Some e)
  | (self1, outs1, None) =>
      let '(self2, outs2, e) := decode_all self1 frames2 in
      (self2, outs1 ++ outs2, e)
  end.
Proof.
  induction frames1 as [|frame frames1 IH]; intros self; cbn [decode_all app].
  - by destruct (decode_all self frames2) as [[? ?] ?].
  - destruct (decode self frame) as [self1 [out|e]]; [|done].
    rewrite IH. destruct (decode_all self1 frames1) as [[self2 outs] [e|]]; [done|].
    by destruct (decode_all self2 frames2) as [[? ?] ?].
Qed.

(** X7: bus traffic outside a transaction is ignored.  In the reset state,
    frames among which there is no Start give no record and no exception and
    leave the analyzer exactly as it was, so that whatever follows is decoded
    as if they had not been there. *)
Theorem idle_traffic_ignored self junk frames :
  Forall not_start_frame junk ->
  decode_all (reset self) junk =
    (reset self, replicate (length junk) None, None) /\
  decode_all (reset self) (junk ++ frames) =
    (let '(self', outs, e) := decode_all (reset self) frames in
     (self', replicate (length junk) None ++ outs, e)).
Proof.
  intros Hjunk. split; [by apply decode_all_idle|].
  by rewrite decode_all_app, decode_all_idle.
Qed.

Lemma idle_traffic_ignored_witness :
  let junk := [FData 0 1 [0x0a] true; FStop 1 2; FAddress 2 3 0x20 false true] in
  Forall not_start_frame junk /\
  decode_all (reset (init false false)) junk =
    (reset (init false false), [None; None; None], None).
Proof.
  intros junk.
  assert (Forall not_start_frame junk) as Hjunk by by repeat constructor.
  split; [exact Hjunk|].
  exact (proj1 (idle_traffic_ignored (init false false) junk [] Hjunk)).
Defined.

Lemma ll_fsm_unacknowledged self st et st1 et1 a r :
  exists self1,
    ll_fsm self (FStart st et) = (self1, None) /\
    ll_fsm self1 (FAddress st1 et1 a r false) = (reset self, None).
Proof.
  unfold ll_fsm at 1. destruct (state self) eqn:Hstate.
  - eexists. split; [done|]. unfold ll_fsm. cbn [state set_start_time set_state].
    by destruct self.
  - eexists. split; [done|]. by rewrite ll_fsm_idle_stays.
  - eexists. split; [done|]. unfold ll_fsm. cbn [state set_state].
    by destruct self.
Qed.

(** X8: an address that is not acknowledged starts no transaction, whatever
    the address: from any state, after a Start and an unacknowledged Address
    the analyzer is in the reset state, and the frames up to the next Start
    -- Data and Stop included -- give no record. *)
Theorem unacknowledged_address_dropped self st et st1 et1 a r frames :
  Forall not_start_frame frames ->
  decode_all self (FStart st et :: FAddress st1 et1 a r false :: frames) =
  (reset self, None :: None :: replicate (length frames) None, None).
Proof.
  intros Hframes.
  destruct (ll_fsm_unacknowledged self st et st1 et1 a r)
    as (self1 & Hstart & Haddr).
  cbn [decode_all].
  rewrite (decode_no_frame _ _ _ Hstart), (decode_no_frame _ _ _ Haddr).
  by rewrite decode_all_idle.
Qed.

Lemma unacknowledged_address_dropped_witness :
  let frames := [FData 2 3 [0x0a] true; FData 3 4 [0x80] true; FStop 4 5] in
  Forall not_start_frame frames /\
  decode_all (init false false)
    (FStart 0 1 :: FAddress 1 2 0x20 false false :: frames) =
  (reset (init false false), [None; None; None; None; None], None).
Proof.
  intros frames.
  assert (Forall not_start_frame frames) as Hframes by by repeat constructor.
  split; [exact Hframes|].
  exact (unacknowledged_address_dropped (init false false) 0 1 1 2 0x20 false
           frames Hframes).
Defined.

(** X9: a Start that directly follows a Start cancels the attempt instead of
    restarting it.  Unless the analyzer was already waiting for an address,
    after two Starts in a row it is in the reset state, and an Address, Data
    and a Stop that follow give no record. *)
Theorem double_start_cancels self st et st' et' frames :
  state self <> START -> Forall not_start_frame frames ->
  decode_all self (FStart st et :: FStart st' et' :: frames) =
  (reset self, None :: None :: replicate (length frames) None, None).
Proof.
  intros Hstate Hframes.
  assert (exists self1, ll_fsm self (FStart st et) = (self1, None) /\
                        ll_fsm self1 (FStart st' et') = (reset self, None))
    as (self1 & Hstart1 & Hstart2).
  { unfold ll_fsm at 1. destruct (state self) eqn:Hst; [|done|];
      (eexists; split; [done|]); unfold ll_fsm; cbn [state set_start_time set_state];
      by destruct self. }
  cbn [decode_all].
  rewrite (decode_no_frame _ _ _ Hstart1), (decode_no_frame _ _ _ Hstart2).
  by rewrite decode_all_idle.
Qed.

Lemma double_start_cancels_witness :
  let frames := [FAddress 2 3 0x20 false true; FData 3 4 [0x0a] true;
                 FData 4 5 [0x80] true; FStop 5 6] in
  state (init false false) <> START /\
  decode_all (init false false) (FStart 0 1 :: FStart 1 2 :: frames) =
  (reset (init false false), [None; None; None; None; None; None], None).
Proof.
  intros frames.
  assert (state (init false false) <> START) as Hstate by discriminate.
  split; [exact Hstate|].
  apply (double_start_cancels (init false false) 0 1 1 2 frames Hstate).
  by repeat constructor.
Defined.

(** ** The bank-mode table over a session *)

Lemma init_lookup_outside iocon_bank show_bits a :
  ~ in_window a -> IOCON_BANK (init iocon_bank show_bits) !! a = None.
Proof.
  intros Ha. unfold init. cbn [reset IOCON_BANK set_state set_address set_data
    set_start_time set_read].
  apply not_elem_of_list_to_map_1. intros Hin.
  apply list_elem_of_fmap in Hin as ([a' b'] & -> & Hin).
  apply list_elem_of_fmap in Hin as (a'' & [= -> ->] & Hin).
  apply elem_of_seqZ in Hin. by apply Ha.
Qed.

Lemma table_on_window_init iocon_bank show_bits :
  table_on_window (init iocon_bank show_bits).
Proof.
  intros a. split.
  - intros Hsome. destruct (decide (in_window a)) as [|Hout]; [done|].
    rewrite init_lookup_outside in Hsome by done. by destruct Hsome.
  - intros Ha. rewrite init_lookup by done. by eexists.
Qed.

Lemma fold_store_domain read iocon_bank chip (items : list (Z * Z))
    (m : gmap Z bool) (key : Z) :
  is_Some (m !! chip) ->
  is_Some (fold_left (item_store read iocon_bank chip) items m !! key)
  <-> is_Some (m !! key).
Proof.
  intros Hchip. destruct (decide (key = chip)) as [->|Hne].
  - split; [done|]. intros _. by apply fold_store_is_Some.
  - by rewrite fold_store_other.
Qed.

Lemma table_on_window_decode self frame :
  table_on_window self -> table_on_window (decode self frame).1.
Proof.
  intros Htable a. rewrite decode_state, <- (Htable a).
  pose proof (proj1 (ll_fsm_IOCON_BANK self frame)) as Hbank.
  destruct ((ll_fsm self frame).2) as [i2c_frame|]; [|by rewrite Hbank].
  rewrite decode_frame_state.
  destruct (decode_fields_state (ll_fsm self frame).1 i2c_frame)
    as [->|(o & vs & chip & b & _ & _ & Hchip & ->)]; [by rewrite Hbank|].
  cbn [IOCON_BANK set_IOCON_BANK]. rewrite fold_store_domain by by eexists.
  by rewrite Hbank.
Qed.

(** X10: the bank-mode table keeps the keys [__init__] gave it.  After any
    event sequence, whether it ended in an exception or not, the table has an
    entry for an address exactly when the address is one of the eight from
    [START_ADDRESS] on: decoding stores only under keys that are there. *)
Theorem bank_table_keys_fixed iocon_bank show_bits (frames : list Frame) (a : Z) :
  is_Some (IOCON_BANK (decode_all (init iocon_bank show_bits) frames).1.1 !! a)
  <-> START_ADDRESS <= a < START_ADDRESS + N_ADDRESSES.
Proof.
  pose proof (table_on_window_init iocon_bank show_bits) as Htable.
  revert Htable. generalize (init iocon_bank show_bits) as self.
  induction frames as [|frame frames IH]; intros self Htable; [apply Htable|].
  cbn [decode_all]. pose proof (table_on_window_decode self frame Htable) as Hstep.
  destruct (decode self frame) as [self1 [out|e]]; cbn [fst snd] in *; [|apply Hstep].
  specialize (IH self1 Hstep).
  by destruct (decode_all self1 frames) as [[? ?] ?].
Qed.

(** ** Whole transactions through the pipeline *)

Lemma decode_all_data (datas : list Frame) : forall self,
  state self = DATA -> Forall is_data_frame datas ->
  decode_all self datas =
  (set_data self (data self ++ payload_of datas),
   replicate (length datas) None, None).
Proof.
  induction datas as [|frame datas IH]; intros self Hstate Hdatas.
  - cbn. rewrite app_nil_r. by destruct self.
  - inversion Hdatas as [|? ? Hframe Hrest]; subst.
    destruct frame; try done. cbn [decode_all].
    rewrite (decode_no_frame _ _ _ (ll_fsm_DATA_data _ _ _ _ _ Hstate)).
    rewrite IH by (done || by destruct self).
    cbn [length replicate payload_of flat_map].
    destruct self; cbn. by rewrite <- app_assoc.
Qed.

Lemma decode_all_skip self frame self1 (frames : list Frame) :
  ll_fsm self frame = (self1, None) ->
  decode_all self (frame :: frames) =
  (let '(self', outs, e) := decode_all self1 frames in (self', None :: outs, e)).
Proof. intros Hfsm. cbn [decode_all]. by rewrite (decode_no_frame _ _ _ Hfsm). Qed.

(** A transaction in progress that is closed by a Stop, through the
    decoder. *)
Lemma decode_all_close self datas st et a start_reg values iocon_bank :
  state self = DATA -> address self = Some a ->
  Forall is_data_frame datas ->
  data self ++ payload_of datas = start_reg :: values ->
  IOCON_BANK self !! a = Some iocon_bank ->
  decode_all self (datas ++ [FStop st et]) =
  (set_IOCON_BANK (reset self)
     (fold_left (item_store (read self) iocon_bank a)
        (enumerate values start_reg) (IOCON_BANK self)),
   replicate (length datas) None ++
     [Some (AnalyzerFrame.mk "MCP23017" (start_time self) et (Some a)
              (if read self then "read" else "write")
              (join "; "
                 (flat_map (item_fields (show_bits_setting self) iocon_bank)
                    (enumerate values start_reg))))],
   None).
Proof.
  intros Hstate Haddr Hdatas Hpayload Hbank.
  rewrite decode_all_app, decode_all_data by done. cbn [decode_all].
  unfold decode. rewrite ll_fsm_DATA_stop by by destruct self.
  rewrite decode_frame_eq.
  erewrite decode_fields_eq;
    [|cbn [LLFrame.data]; destruct self; cbn in *; exact Hpayload
     |cbn [LLFrame.address]; destruct self; cbn in *; exact Haddr
     |destruct self; cbn in *; exact Hbank].
  destruct self; cbn in *. by rewrite Haddr.
Qed.

(** X11: a transaction that carries only the register offset -- one payload
    byte -- gives a record with no field: its data string is empty, and the
    bank-mode table is untouched whatever the offset and the direction. *)
Theorem offset_only_transaction self st et st1 et1 a r st2 et2 ack st3 et3 start_reg :
  in_window a -> is_Some (IOCON_BANK self !! a) ->
  decode_all (reset self)
    [FStart st et; FAddress st1 et1 a r true; FData st2 et2 [start_reg] ack;
     FStop st3 et3] =
  (reset self,
   [None; None; None;
    Some (AnalyzerFrame.mk "MCP23017" (Some st) et3 (Some a)
            (if r then "read" else "write") EmptyString)],
   None).
Proof.
  intros Ha [b Hb].
  rewrite (decode_all_skip _ _ _ _ (ll_fsm_reset_start self st et)).
  set (self1 := set_start_time (set_state (reset self) START) (Some st)).
  rewrite (decode_all_skip _ _ _ _
             (ll_fsm_START_address self1 st1 et1 a r eq_refl Ha)).
  set (self2 := set_state (set_address (set_read self1 (read self1 || r)) (Some a)) DATA).
  change [FData st2 et2 [start_reg] ack; FStop st3 et3]
    with ([FData st2 et2 [start_reg] ack] ++ [FStop st3 et3]).
  rewrite (decode_all_close self2 [FData st2 et2 [start_reg] ack] st3 et3 a
             start_reg [] b eq_refl eq_refl).
  - unfold self2, self1. destruct self. reflexivity.
  - by repeat constructor.
  - unfold self2, self1. destruct self. reflexivity.
  - unfold self2, self1. destruct self. exact Hb.
Qed.

Lemma offset_only_transaction_witness :
  in_window 0x20 /\ is_Some (IOCON_BANK (init false true) !! 0x20) /\
  decode_all (reset (init false true))
    [FStart 0 1; FAddress 1 2 0x20 false true; FData 2 3 [0x0a] true; FStop 3 4] =
  (reset (init false true),
   [None; None; None;
    Some (AnalyzerFrame.mk "MCP23017" (Some 0) 4 (Some 0x20) "write" EmptyString)],
   None).
Proof.
  assert (in_window 0x20) as Hwin
    by (unfold in_window, START_ADDRESS, N_ADDRESSES; lia).
  assert (is_Some (IOCON_BANK (init false true) !! 0x20)) as Hsome by by eexists.
  split; [exact Hwin|]. split; [exact Hsome|].
  exact (offset_only_transaction (init false true) 0 1 1 2 0x20 false 2 3
           true 3 4 0x0a Hwin Hsome).
Defined.

(** X12: a register read as the device does it -- the offset written, a
    repeated start, then the values read -- is decoded as one read
    transaction.  With verbose expansion off, from the reset state, the
    record produced at the Stop is labelled [read], carries the start time of
    the first Start and the end time of the Stop, and has one field
    [NAME=value] per byte read, the names being resolved from the written
    offset on, in the chip's current bank mode; the analyzer is back in the
    reset state with the bank-mode table unchanged. *)
Theorem register_read_decoded
    self st et st1 et1 a st2 et2 ack start_reg st3 et3 st4 et4 datas st5 et5
    iocon_bank :
  in_window a -> IOCON_BANK self !! a = Some iocon_bank ->
  show_bits_setting self = false -> Forall is_data_frame datas ->
  decode_all (reset self)
    (FStart st et :: FAddress st1 et1 a false true ::
     FData st2 et2 [start_reg] ack ::
     FStart st3 et3 :: FAddress st4 et4 a true true ::
     datas ++ [FStop st5 et5]) =
  (reset self,
   None :: None :: None :: None :: None :: replicate (length datas) None ++
     [Some (AnalyzerFrame.mk "MCP23017" (Some st) et5 (Some a) "read"
              (join "; "
                 (map (fun item => reg_name_of iocon_bank (fst item)
                                     +:+ "=" +:+ format_04x (snd item))
                      (enumerate (payload_of datas) start_reg))))],
   None).
Proof.
  intros Ha Hbank Hshow Hdatas.
  rewrite (decode_all_skip _ _ _ _ (ll_fsm_reset_start self st et)).
  set (self1 := set_start_time (set_state (reset self) START) (Some st)).
  rewrite (decode_all_skip _ _ _ _
             (ll_fsm_START_address self1 st1 et1 a false eq_refl Ha)).
  set (self2 := set_state (set_address (set_read self1 (read self1 || false))
                             (Some a)) DATA).
  rewrite (decode_all_skip _ _ _ _
             (ll_fsm_DATA_data self2 st2 et2 [start_reg] ack eq_refl)).
  set (self3 := set_data self2 (data self2 ++ [start_reg])).
  rewrite (decode_all_skip _ _ _ _ (ll_fsm_DATA_start self3 st3 et3 eq_refl)).
  set (self4 := set_state self3 START).
  rewrite (decode_all_skip _ _ _ _
             (ll_fsm_START_address self4 st4 et4 a true eq_refl Ha)).
  set (self5 := set_state (set_address (set_read self4 (read self4 || true))
                             (Some a)) DATA).
  rewrite (decode_all_close self5 datas st5 et5 a start_reg (payload_of datas)
             iocon_bank eq_refl eq_refl Hdatas).
  - replace (read self5) with true by by destruct self.
    rewrite fold_store_read by done.
    replace (show_bits_setting self5) with false by by destruct self.
    rewrite flat_map_item_fields_plain.
    replace (start_time self5) with (Some st) by by destruct self.
    replace (set_IOCON_BANK (reset self5) (IOCON_BANK self5)) with (reset self)
      by by destruct self.
    reflexivity.
  - by destruct self.
  - by destruct self.
Qed.

Lemma register_read_decoded_witness :
  in_window 0x20 /\ IOCON_BANK (init true false) !! 0x20 = Some true /\
  decode_all (reset (init true false))
    [FStart 0 1; FAddress 1 2 0x20 false true; FData 2 3 [0x09] true;
     FStart 3 4; FAddress 4 5 0x20 true true; FData 5 6 [0x05] true;
     FData 6 7 [0xff] false; FStop 7 8] =
  (reset (init true false),
   [None; None; None; None; None; None; None;
    Some (AnalyzerFrame.mk "MCP23017" (Some 0) 8 (Some 0x20) "read"
            "GPIOA=0x05; OLATA=0xff")],
   None).
Proof.
  assert (in_window 0x20) as Hwin
    by (unfold in_window, START_ADDRESS, N_ADDRESSES; lia).
  split; [exact Hwin|]. split; [reflexivity|].
  change [FStart 0 1; FAddress 1 2 0x20 false true; FData 2 3 [0x09] true;
          FStart 3 4; FAddress 4 5 0x20 true true; FData 5 6 [0x05] true;
          FData 6 7 [0xff] false; FStop 7 8]
    with (FStart 0 1 :: FAddress 1 2 0x20 false true :: FData 2 3 [0x09] true ::
          FStart 3 4 :: FAddress 4 5 0x20 true true ::
          [FData 5 6 [0x05] true; FData 6 7 [0xff] false] ++ [FStop 7 8]).
  rewrite (register_read_decoded (init true false) 0 1 1 2 0x20 2 3 true 0x09
             3 4 4 5 [FData 5 6 [0x05] true; FData 6 7 [0xff] false] 7 8 true
             Hwin eq_refl eq_refl).
  - reflexivity.
  - by repeat constructor.
Defined.

(** ** The decoder against the reassembler *)

Lemma same_fsm_refl self : same_fsm self self.
Proof. by repeat split. Qed.

Lemma same_fsm_trans self1 self2 self3 :
  same_fsm self1 self2 -> same_fsm self2 self3 -> same_fsm self1 self3.
Proof.
  intros (? & ? & ? & ? & ?) (? & ? & ? & ? & ?). repeat split; congruence.
Qed.

Lemma same_fsm_ll_fsm self1 self2 frame :
  same_fsm self1 self2 ->
  (ll_fsm self1 frame).2 = (ll_fsm self2 frame).2 /\
  same_fsm (ll_fsm self1 frame).1 (ll_fsm self2 frame).1.
Proof.
  destruct self1, self2. intros (H1 & H2 & H3 & H4 & H5). cbn in *. subst.
  unfold ll_fsm. cbn [state].
  destruct state1, frame as [| ? ? ? ? []| | |]; try (split; [done|by repeat split]).
  cbn. case_match; (split; [done|by repeat split]).
Qed.

Lemma same_fsm_decode_frame self i2c_frame :
  same_fsm (decode_frame self i2c_frame).1 self.
Proof.
  rewrite decode_frame_state.
  destruct (decode_fields_state self i2c_frame)
    as [->|(o & vs & chip & b & _ & _ & _ & ->)]; by repeat split.
Qed.

(** One step of the pipeline on a [ready] analyzer, against the reassembler's
    step. *)
Lemma decode_against_ll_fsm self frame :
  ready self ->
  same_fsm (decode self frame).1 (ll_fsm self frame).1 /\
  match (ll_fsm self frame).2 with
  | None => (decode self frame).2 = Return None
  | Some i2c_frame =>
      (LLFrame.data i2c_frame = [] /\ (decode self frame).2 = Raise IndexError) \/
      (LLFrame.data i2c_frame <> [] /\
       exists out, (decode self frame).2 = Return (Some out) /\
                   record_of out i2c_frame)
  end.
Proof.
  intros Hready. pose proof (ready_ll_fsm self frame Hready) as Hready1.
  split.
  { rewrite decode_state. destruct ((ll_fsm self frame).2);
      [apply same_fsm_decode_frame|apply same_fsm_refl]. }
  unfold decode.
  destruct (ll_fsm self frame) as [self1 [i2c_frame|]] eqn:Hfsm;
    cbn [fst snd] in *; [|done].
  apply ll_fsm_emits in Hfsm as Hemit.
  destruct Hemit as (Hstate & _ & Haddr & _).
  destruct (proj2 Hready Hstate) as (a & Ha & Hwin).
  destruct (proj1 Hready1 a Hwin) as [b Hb].
  rewrite decode_frame_eq.
  destruct (LLFrame.data i2c_frame) as [|o vs] eqn:Hdata.
  - left. split; [done|]. unfold decode_fields. by rewrite Hdata.
  - right. split; [done|].
    rewrite (decode_fields_eq self1 i2c_frame o vs a b) by congruence.
    cbn. eexists. split; [done|]. by repeat split.
Qed.

Lemma pipeline_against_reassembler (frames : list Frame) : forall self self2,
  ready self -> same_fsm self self2 ->
  (forall (j : nat) out, (decode_all self frames).1.2 !! j = Some out ->
     exists i2c_frame,
       (ll_run self2 frames).2 !! j = Some i2c_frame /\
       record_matches out i2c_frame) /\
  ((decode_all self frames).2 = None ->
   length (decode_all self frames).1.2 = length frames) /\
  (forall e, (decode_all self frames).2 = Some e ->
     e = IndexError /\
     exists i2c_frame,
       (ll_run self2 frames).2 !! length (decode_all self frames).1.2
         = Some (Some i2c_frame) /\
       LLFrame.data i2c_frame = []).
Proof.
  induction frames as [|frame frames IH]; intros self self2 Hready Hsame.
  { cbn. split; [intros j out Hj; done|]. split; [done|]. intros e He. done. }
  cbn [decode_all ll_run].
  destruct (decode_against_ll_fsm self frame Hready) as [Hsame1 Hstep].
  destruct (same_fsm_ll_fsm self self2 frame Hsame) as [Hout Hsame2].
  pose proof (proj1 (ready_decode self frame Hready)) as Hready1.
  rewrite Hout in Hstep.
  destruct (ll_fsm self2 frame) as [self2' t] eqn:Hfsm2. cbn [fst snd] in *.
  assert (same_fsm (decode self frame).1 self2') as Hsame'
    by (eapply same_fsm_trans; [exact Hsame1|exact Hsame2]).
  destruct (decode self frame) as [self1 [out|e]] eqn:Hdec; cbn [fst snd] in *.
  - specialize (IH self1 self2' Hready1 Hsame') as (IHout & IHlen & IHexn).
    destruct (ll_run self2' frames) as [self2'' lls].
    destruct (decode_all self1 frames) as [[self1' outs] e]. cbn [fst snd] in *.
    assert (record_matches out t) as Hmatch.
    { destruct t as [i2c_frame|]; [|by injection Hstep as ->].
      destruct Hstep as [[_ Hraise]|(Hdata & out' & [= ->] & Hrec)]; [done|].
      by split. }
    split; [|split].
    + intros [|j] out' Hj; cbn in Hj |- *.
      * injection Hj as <-. by exists t.
      * by apply IHout.
    + intros He. cbn. by rewrite IHlen.
    + intros e' He'. destruct (IHexn e' He') as (-> & i2c_frame & Hlook & Hdata).
      split; [done|]. by exists i2c_frame.
  - destruct t as [i2c_frame|]; [|done].
    destruct Hstep as [[Hdata [= ->]]|(_ & out' & Hret & _)]; [|done].
    destruct (ll_run self2' frames) as [self2'' lls]. cbn [fst snd].
    split; [intros j out Hj; done|]. split; [done|].
    intros e' [= <-]. split; [done|]. by exists i2c_frame.
Qed.

(** X13: the decoder answers the reassembler frame by frame.  From
    construction on, up to the point where the session ends, the pipeline
    gives [None] for an event exactly when the reassembler emits nothing for
    it, and a record exactly when the reassembler emits a transaction; the
    record has type [MCP23017], the transaction's start time, end time and
    address, and the label [read] or [write] by its direction flag.  A
    session that does not raise answers every event. *)
Theorem records_answer_transactions iocon_bank show_bits (frames : list Frame) :
  let outs := (decode_all (init iocon_bank show_bits) frames).1.2 in
  let i2c_frames := (ll_run (init iocon_bank show_bits) frames).2 in
  (forall (j : nat) out, outs !! j = Some out ->
     match out, i2c_frames !! j with
     | None, Some None => True
     | Some out, Some (Some i2c_frame) =>
         AnalyzerFrame.type out = "MCP23017" /\
         AnalyzerFrame.start_time out = LLFrame.start_time i2c_frame /\
         AnalyzerFrame.end_time out = LLFrame.end_time i2c_frame /\
         AnalyzerFrame.data_address out = LLFrame.address i2c_frame /\
         AnalyzerFrame.data_read out =
           (if LLFrame.read i2c_frame then "read" else "write")
     | _, _ => False
     end) /\
  ((decode_all (init iocon_bank show_bits) frames).2 = None ->
   length outs = length frames).
Proof.
  intros outs i2c_frames.
  destruct (pipeline_against_reassembler frames (init iocon_bank show_bits)
              (init iocon_bank show_bits) (ready_init _ _) (same_fsm_refl _))
    as (Hout & Hlen & _).
  split; [|exact Hlen].
  intros j out Hj. destruct (Hout j out Hj) as (t & Ht & Hmatch).
  unfold i2c_frames. rewrite Ht.
  destruct out as [out|], t as [t|]; try done. by destruct Hmatch.
Qed.

(** X14: when the session ends in an exception.  From construction on, an
    event sequence makes the pipeline raise exactly when the reassembler
    emits, somewhere in it, a transaction with an empty payload (an
    acknowledged address in the window closed by a Stop with no data byte in
    between); otherwise every event is answered. *)
Theorem raises_exactly_on_empty_payload iocon_bank show_bits (frames : list Frame) :
  (decode_all (init iocon_bank show_bits) frames).2 <> None <->
  exists (j : nat) i2c_frame,
    (ll_run (init iocon_bank show_bits) frames).2 !! j = Some (Some i2c_frame) /\
    LLFrame.data i2c_frame = [].
Proof.
  destruct (pipeline_against_reassembler frames (init iocon_bank show_bits)
              (init iocon_bank show_bits) (ready_init _ _) (same_fsm_refl _))
    as (Hout & Hlen & Hexn).
  split.
  - intros Hraise.
    destruct ((decode_all (init iocon_bank show_bits) frames).2) as [e|] eqn:He;
      [|done].
    destruct (Hexn e eq_refl) as (_ & t & Hlook & Hdata). by eexists _, t.
  - intros (j & t & Hj & Hdata) Hnone.
    specialize (Hlen Hnone).
    pose proof (lookup_lt_Some _ _ _ Hj) as Hlt.
    rewrite ll_run_length, <- Hlen in Hlt.
    destruct (lookup_lt_is_Some_2 _ _ Hlt) as [out Hlook].
    destruct (Hout j out Hlook) as (t' & Hj' & Hmatch).
    rewrite Hj in Hj'. injection Hj' as <-.
    destruct out as [out|]; [|done]. by destruct Hmatch.
Qed.

Lemma records_answer_transactions_witness :
  let frames :=
    [FStart 0 1; FAddress 1 2 0x20 false true; FData 2 3 [0x0a] true;
     FData 3 4 [0x80] true; FStop 4 5] in
  (decode_all (init false false) frames).2 = None /\
  length (decode_all (init false false) frames).1.2 = length frames.
Proof.
  intros frames. split; [reflexivity|].
  apply (proj2 (records_answer_transactions false false frames)). reflexivity.
Defined.

Lemma raises_exactly_on_empty_payload_witness :
  let frames := [FStart 0 1; FAddress 1 2 0x23 true true; FStop 2 3; FStart 3 4] in
  (ll_run (init false false) frames).2 !! 2%nat
    = Some (Some (LLFrame.mk (Some 0) 3 [] true (Some 0x23))) /\
  (decode_all (init false false) frames).2 <> None.
Proof.
  intros frames. split; [reflexivity|].
  apply (proj2 (raises_exactly_on_empty_payload false false frames)).
  exists 2%nat, (LLFrame.mk (Some 0) 3 [] true (Some 0x23)).
  split; reflexivity.
Defined.

(** ** Times of a transaction *)

Lemma started_step frames self frame :
  started frames self -> started (frames ++ [frame]) (ll_fsm self frame).1.
Proof.
  intros Hinv. unfold ll_fsm.
  destruct (state self) eqn:Hstate.
  - destruct frame as [st et| | | |]; try (intros Hst; by destruct Hst).
    intros _. exists (length frames), st, et.
    split; [by rewrite list_lookup_middle|done].
  - destruct (Hinv ltac:(congruence)) as (i & st & et & Hi & Hstart).
    destruct frame as [| st' et' a r [|] | | |]; try (intros Hst; by destruct Hst).
    destruct (_ && _); [|intros Hst; by destruct Hst].
    intros _. exists i, st, et. split; [by apply lookup_app_l_Some|done].
  - destruct (Hinv ltac:(congruence)) as (i & st & et & Hi & Hstart).
    destruct frame; try (intros Hst; by destruct Hst);
      intros _; exists i, st, et; (split; [by apply lookup_app_l_Some|done]).
Qed.

Lemma ll_run_started iocon_bank show_bits (frames : list Frame) :
  started frames (ll_run (init iocon_bank show_bits) frames).1 /\
  forall (j : nat) i2c_frame,
    (ll_run (init iocon_bank show_bits) frames).2 !! j = Some (Some i2c_frame) ->
    exists (i : nat) st et st' et',
      (i < j)%nat /\ frames !! i = Some (FStart st et) /\
      frames !! j = Some (FStop st' et') /\
      LLFrame.start_time i2c_frame = Some st /\
      LLFrame.end_time i2c_frame = et'.
Proof.
  induction frames as [|frame frames [IHinv IHout]] using rev_ind.
  - split; [intros Hst; by destruct Hst|]. intros j t Hj. done.
  - rewrite ll_run_app. cbn [fst snd ll_run].
    pose proof (ll_run_length frames (init iocon_bank show_bits)) as Hlen.
    destruct (ll_run (init iocon_bank show_bits) frames) as [self outs].
    cbn [fst snd] in *.
    pose proof (started_step _ _ frame IHinv) as Hstep.
    destruct (ll_fsm self frame) as [self' out] eqn:Hfsm. cbn [fst snd] in *.
    split; [done|]. intros j t Hj.
    destruct (decide (j < length outs)%nat) as [Hlt|Hge].
    + rewrite lookup_app_l in Hj by done.
      destruct (IHout j t Hj) as (i & st & et & st' & et' & Hij & Hi & Hstop & Hs & He).
      exists i, st, et, st', et'.
      split; [done|]. split; [by apply lookup_app_l_Some|].
      split; [by apply lookup_app_l_Some|done].
    + rewrite lookup_app_r in Hj by lia.
      destruct (j - length outs)%nat eqn:Hjn; [|done].
      injection Hj as ->. assert (j = length frames) as -> by lia.
      apply ll_fsm_emits in Hfsm as Hemit.
      destruct Hemit as (Hstate & (st' & et' & ->) & _ & _ & _ & Hstart).
      rewrite ll_fsm_DATA_stop in Hfsm by done. injection Hfsm as _ <-.
      destruct (IHinv ltac:(congruence)) as (i & st & et & Hi & Hself).
      exists i, st, et, st', et'.
      pose proof (lookup_lt_Some _ _ _ Hi) as Hilt.
      split; [done|]. split; [by apply lookup_app_l_Some|].
      split; [by rewrite list_lookup_middle|done].
Qed.

(** X15: the times of a transaction are those of its frames.  From
    construction on, every transaction the reassembler emits has the start
    time of a Start frame that came before the Stop that closed it, and the
    end time of that Stop.  If the events are delivered in time order, its
    start time is not after its end time. *)
Theorem emitted_times iocon_bank show_bits (frames : list Frame) (j : nat) i2c_frame :
  (ll_run (init iocon_bank show_bits) frames).2 !! j = Some (Some i2c_frame) ->
  (exists (i : nat) st et st' et',
     (i < j)%nat /\ frames !! i = Some (FStart st et) /\
     frames !! j = Some (FStop st' et') /\
     LLFrame.start_time i2c_frame = Some st /\
     LLFrame.end_time i2c_frame = et') /\
  (chronological frames ->
   exists st, LLFrame.start_time i2c_frame = Some st /\
              st <= LLFrame.end_time i2c_frame).
Proof.
  intros Hj.
  destruct (proj2 (ll_run_started iocon_bank show_bits frames) j i2c_frame Hj)
    as (i & st & et & st' & et' & Hij & Hi & Hstop & Hs & He).
  split; [by exists i, st, et, st', et'|].
  intros Hchron. exists st. split; [done|]. rewrite He.
  exact (Hchron i j _ _ Hij Hi Hstop).
Qed.

Lemma emitted_times_witness :
  let frames :=
    [FStart 10 11; FAddress 11 12 0x20 false true; FData 12 13 [0x0a] true;
     FStop 13 14] in
  (ll_run (init false false) frames).2 !! 3%nat
    = Some (Some (LLFrame.mk (Some 10) 14 [0x0a] false (Some 0x20))) /\
  exists (i : nat) st et st' et',
    (i < 3)%nat /\ frames !! i = Some (FStart st et) /\
    frames !! 3%nat = Some (FStop st' et').
Proof.
  intros frames. split; [reflexivity|].
  destruct (proj1 (emitted_times false false frames 3%nat
                     (LLFrame.mk (Some 10) 14 [0x0a] false (Some 0x20)) eq_refl))
    as (i & st & et & st' & et' & Hi & Hstart & Hstop & _).
  by exists i, st, et, st', et'.
Defined.

(** ** The verbose setting *)

Lemma ll_fsm_show_bits self s frame :
  ll_fsm (set_show_bits_setting self s) frame =
  (set_show_bits_setting (ll_fsm self frame).1 s, (ll_fsm self frame).2).
Proof.
  unfold ll_fsm. cbn [state set_show_bits_setting].
  destruct (state self), frame as [| ? ? ? ? []| | |]; try done.
  by case_match.
Qed.

Lemma decode_frame_show_bits self s i2c_frame :
  (decode_frame (set_show_bits_setting self s) i2c_frame).1 =
    set_show_bits_setting (decode_frame self i2c_frame).1 s /\
  match (decode_frame self i2c_frame).2,
        (decode_frame (set_show_bits_setting self s) i2c_frame).2 with
  | Return out1, Return out2 => same_header (Some out1) (Some out2)
  | Raise e1, Raise e2 => e1 = e2
  | _, _ => False
  end.
Proof.
  rewrite !decode_frame_eq. cbn [fst snd]. unfold decode_fields.
  cbn [IOCON_BANK set_show_bits_setting].
  destruct (LLFrame.data i2c_frame) as [|start_reg values]; [done|].
  destruct (LLFrame.address i2c_frame) as [chip|]; [|done].
  destruct (IOCON_BANK self !! chip) as [iocon_bank|]; [|done].
  rewrite !decode_loop_eq. cbn. by repeat split.
Qed.

Lemma decode_show_bits self s frame :
  (decode (set_show_bits_setting self s) frame).1 =
    set_show_bits_setting (decode self frame).1 s /\
  match (decode self frame).2, (decode (set_show_bits_setting self s) frame).2 with
  | Return out1, Return out2 => same_header out1 out2
  | Raise e1, Raise e2 => e1 = e2
  | _, _ => False
  end.
Proof.
  unfold decode. rewrite ll_fsm_show_bits.
  destruct (ll_fsm self frame) as [self1 [i2c_frame|]]; cbn [fst snd]; [|done].
  destruct (decode_frame_show_bits self1 s i2c_frame) as [Hstate Hout].
  destruct (decode_frame self1 i2c_frame) as [self2 [out1|e1]],
    (decode_frame (set_show_bits_setting self1 s) i2c_frame) as [self2' [out2|e2]];
    cbn [fst snd] in *; done.
Qed.

(** X16: the verbose setting changes the data strings and nothing else.
    Decoding the same events with the setting changed ends in the same
    analyzer state (the setting apart) -- the same bank-mode table above all
    -- with the same exception if any, and answers the same events with
    records that have the same type, times, address and direction label. *)
Theorem verbose_setting_display_only (frames : list Frame) : forall self s,
  (decode_all (set_show_bits_setting self s) frames).1.1 =
    set_show_bits_setting (decode_all self frames).1.1 s /\
  (decode_all (set_show_bits_setting self s) frames).2 =
    (decode_all self frames).2 /\
  Forall2 same_header (decode_all self frames).1.2
    (decode_all (set_show_bits_setting self s) frames).1.2.
Proof.
  induction frames as [|frame frames IH]; intros self s.
  { cbn. by repeat split. }
  cbn [decode_all]. destruct (decode_show_bits self s frame) as [Hstate Hout].
  destruct (decode self frame) as [self1 [out1|e1]],
    (decode (set_show_bits_setting self s) frame) as [self1' [out2|e2]];
    cbn [fst snd] in *; try done.
  - subst self1'. destruct (IH self1 s) as (IHstate & IHexn & IHouts).
    destruct (decode_all self1 frames) as [[? ?] ?],
      (decode_all (set_show_bits_setting self1 s) frames) as [[? ?] ?].
    cbn [fst snd] in *. split; [done|]. split; [done|]. by constructor.
  - subst. by repeat split.
Qed.

(** ** Nothing is left over between transactions *)

Lemma ll_fsm_idle_is_reset self frame :
  state (ll_fsm self frame).1 = IDLE -> (ll_fsm self frame).1 = reset self.
Proof.
  unfold ll_fsm.
  destruct (state self) eqn:Hstate, frame as [| ? ? ? ? []| | |];
    cbn [fst]; try done; try (intros _; by destruct self);
    try (intros Hst; cbn in Hst; congruence).
  case_match; [done|]. intros _. by destruct self.
Qed.

Lemma decode_settings_kept self frame :
  iocon_bank_setting (decode self frame).1 = iocon_bank_setting self /\
  show_bits_setting (decode self frame).1 = show_bits_setting self.
Proof.
  rewrite decode_state.
  assert (iocon_bank_setting (ll_fsm self frame).1 = iocon_bank_setting self /\
          show_bits_setting (ll_fsm self frame).1 = show_bits_setting self)
    as [Hbank Hshow].
  { unfold ll_fsm.
    destruct (state self), frame as [| ? ? ? ? []| | |]; try done.
    by case_match. }
  destruct ((ll_fsm self frame).2) as [i2c_frame|]; [|done].
  rewrite decode_frame_state.
  by destruct (decode_fields_state (ll_fsm self frame).1 i2c_frame)
    as [->|(o & vs & chip & b & _ & _ & _ & ->)].
Qed.

Lemma decode_idle_is_reset self frame :
  state (decode self frame).1 = IDLE ->
  (decode self frame).1 =
  set_IOCON_BANK (reset self) (IOCON_BANK (decode self frame).1).
Proof.
  rewrite decode_state.
  pose proof (ll_fsm_idle_is_reset self frame) as Hidle.
  destruct ((ll_fsm self frame).2) as [i2c_frame|].
  - rewrite decode_frame_state.
    destruct (decode_fields_state (ll_fsm self frame).1 i2c_frame)
      as [->|(o & vs & chip & b & _ & _ & _ & ->)].
    + intros Hst. rewrite (Hidle Hst). by destruct self.
    + intros Hst. rewrite (Hidle Hst). by destruct self.
  - intros Hst. rewrite (Hidle Hst). by destruct self.
Qed.

Lemma decode_all_idle_is_reset (frames : list Frame) : forall self,
  (state self = IDLE -> self = reset self) ->
  state (decode_all self frames).1.1 = IDLE ->
  (decode_all self frames).1.1 =
  set_IOCON_BANK (reset self) (IOCON_BANK (decode_all self frames).1.1).
Proof.
  induction frames as [|frame frames IH]; intros self Hself.
  { cbn. intros Hst. rewrite (Hself Hst) at 1. by destruct self. }
  cbn [decode_all].
  pose proof (decode_idle_is_reset self frame) as Hstep.
  destruct (decode_settings_kept self frame) as [Hbank Hshow].
  destruct (decode self frame) as [self1 [out|e]]; cbn [fst snd] in *; [|done].
  assert (state self1 = IDLE -> self1 = reset self1) as Hself1.
  { intros Hst. rewrite (Hstep Hst) at 1. rewrite (Hstep Hst). by destruct self. }
  specialize (IH self1 Hself1).
  destruct (decode_all self1 frames) as [[self2 outs] e]. cbn [fst snd] in *.
  intros Hst. rewrite (IH Hst) at 1.
  destruct self, self1. cbn in *. by subst.
Qed.

(** X17: nothing of a finished or abandoned transaction is left over.
    After any event sequence from construction, whenever the analyzer is in
    the IDLE state it is the freshly constructed analyzer except for the
    bank-mode table: the payload buffer is empty, the direction flag is
    cleared, and no address or start time is stored. *)
Theorem idle_is_fresh iocon_bank show_bits (frames : list Frame) :
  let self := (decode_all (init iocon_bank show_bits) frames).1.1 in
  state self = IDLE ->
  self = set_IOCON_BANK (init iocon_bank show_bits) (IOCON_BANK self) /\
  data self = [] /\ read self = false /\ address self = None /\
  start_time self = None.
Proof.
  intros self Hst.
  pose proof (decode_all_idle_is_reset frames (init iocon_bank show_bits)
                (fun _ => eq_refl) Hst) as Heq.
  fold self in Heq. split; [exact Heq|]. by rewrite Heq.
Qed.

Lemma idle_is_fresh_witness :
  let frames :=
    [FStart 0 1; FAddress 1 2 0x20 false true; FData 2 3 [0x0a] true;
     FData 3 4 [0x80] true; FOther 4 5] in
  let self := (decode_all (init false false) frames).1.1 in
  state self = IDLE /\ data self = [] /\ read self = false.
Proof.
  intros frames self.
  assert (state self = IDLE) as Hst by reflexivity.
  destruct (idle_is_fresh false false frames Hst) as (_ & Hdata & Hread & _).
  by repeat split.
Defined.
